(** * un-discordcdn: the URL-span extraction and line-rewrite engine

    A shallow embedding of [main.py] and the properties of its span
    extractor, filename deriver, line rewriter, file processor and tree
    walker.

    Python values are modelled as follows.
    - [str] is a list of Unicode code points ([N]), [int] is [Z]; the
      string methods the program calls ([find], [rfind], [replace],
      [startswith], [endswith], indexing and slicing with negative
      offsets) are defined once, for all arguments.
    - A function that can raise returns a [result].
    - I/O is explicit state passing over a [World]: the files by path, the
      directories, the console, and the log of [open] calls.  Writes
      always succeed; [open] of a missing file raises.
    - The interpreter's Unicode table, the response of [requests.get],
      [os.path.join] and the listing of [os.walk] are parameters.

    The first part holds the model, the second the properties. *)

From Stdlib Require Import ZArith Lia List Ascii String DecimalString.
From stdpp Require Import base option list gmap.

Local Open Scope Z_scope.

(** ** Python strings *)

Abbreviation char := N.
Abbreviation str := (list N).

(** A string literal of the source, as code points. *)
Definition py (s : string) : str :=
  map N_of_ascii (list_ascii_of_string s).

(** [len(s)] *)
Definition len (s : str) : Z := Z.of_nat (length s).

Inductive exn :=
| IndexError
| FileNotFoundError
| UnicodeDecodeError.

Inductive result (A : Type) :=
| Return (a : A)
| Raise (e : exn).
Arguments Return {A} a.
Arguments Raise {A} e.

Definition bind_result {A B} (r : result A) (k : A -> result B) : result B :=
  match r with
  | Return a => k a
  | Raise e => Raise e
  end.

(** An index or slice bound counted from the end when negative. *)
Definition from_end (s : str) (i : Z) : Z :=
  if i <? 0 then i + len s else i.

(** [s[i]]: a one-character string, [IndexError] out of range. *)
Definition getitem (s : str) (i : Z) : result str :=
  let j := from_end s i in
  if (j <? 0) || (len s <=? j) then Raise IndexError
  else match s !! Z.to_nat j with
       | Some c => Return [c]
       | None => Raise IndexError
       end.

(** A slice bound clamped into [0 .. len(s)]. *)
Definition clamp (s : str) (i : Z) : nat :=
  Z.to_nat (Z.min (len s) (Z.max 0 (from_end s i))).

(** [s[lo:hi]]; [None] is an omitted bound. *)
Definition slice (s : str) (lo hi : option Z) : str :=
  let a := match lo with Some i => clamp s i | None => 0%nat end in
  let b := match hi with Some i => clamp s i | None => length s end in
  take (b - a) (drop a s).

(** [s.startswith(p)] *)
Fixpoint startswith (s p : str) {struct p} : bool :=
  match p, s with
  | [], _ => true
  | _ :: _, [] => false
  | c :: p', d :: s' => (c =? d)%N && startswith s' p'
  end.

(** [s.endswith(p)] *)
Definition endswith (s p : str) : bool :=
  (length p <=? length s)%nat && startswith (drop (length s - length p) s) p.

(** The lowest offset at which [sub] occurs in [s]. *)
Fixpoint first_occ (sub s : str) : option nat :=
  if startswith s sub then Some 0%nat
  else match s with
       | [] => None
       | _ :: s' => S <$> first_occ sub s'
       end.

(** The highest offset at which [sub] occurs in [s]. *)
Fixpoint last_occ (sub s : str) : option nat :=
  match s with
  | [] => if startswith [] sub then Some 0%nat else None
  | _ :: s' =>
      match last_occ sub s' with
      | Some k => Some (S k)
      | None => if startswith s sub then Some 0%nat else None
      end
  end.

(** [s.find(sub, start)]: the lowest index at or after [start], or -1. *)
Definition find (s sub : str) (start : Z) : Z :=
  let a := Z.max 0 (from_end s start) in
  if len s <? a then -1
  else match first_occ sub (drop (Z.to_nat a) s) with
       | Some k => a + Z.of_nat k
       | None => -1
       end.

(** [s.rfind(sub)]: the highest index, or -1. *)
Definition rfind (s sub : str) : Z :=
  match last_occ sub s with
  | Some k => Z.of_nat k
  | None => -1
  end.

(** [sub in s] *)
Definition contains (s sub : str) : bool :=
  negb (find s sub 0 =? -1).

(** [s.replace(old, new)] for a non-empty [old]: occurrences are replaced
    left to right and do not overlap.  [n] bounds the characters left. *)
Fixpoint replace_from (n : nat) (s old new : str) : str :=
  match n with
  | O => s
  | S n' =>
      if startswith s old then new ++ replace_from n' (drop (length old) s) old new
      else match s with
           | [] => []
           | c :: s' => c :: replace_from n' s' old new
           end
  end.

(** [s.replace(old, new)]; an empty [old] matches before every character
    and at the end. *)
Definition replace (s old new : str) : str :=
  match old with
  | [] => new ++ flat_map (fun c => c :: new) s
  | _ :: _ => replace_from (length s) s old new
  end.

(** ** Character classes

    [str.isalnum] is decided by the interpreter's Unicode database; the
    ASCII range is fixed, the rest of the table is a parameter. *)

Definition ascii_alnum (c : char) : bool :=
  ((48 <=? c) && (c <=? 57) || (65 <=? c) && (c <=? 90)
   || (97 <=? c) && (c <=? 122))%N.

(** ** The file system, the console and the network *)

(** What a file holds: text as [read()] returns it (decoded as UTF-8,
    line ends translated to a line feed), or bytes that do not decode. *)
Inductive data :=
| Text (t : str)
| Binary (b : list N).

(** The modes the program opens files in: ['r'], ['w'] and ['wb']. *)
Inductive mode := ReadText | WriteText | WriteBinary.

Record World := mkWorld {
  files : gmap str data;
  dirs : gset str;
  console : list str;
  opened : list (str * mode)
}.

Definition io (A : Type) : Type := World -> result A * World.

Definition ret {A} (a : A) : io A := fun w => (Return a, w).

Definition bind {A B} (m : io A) (k : A -> io B) : io B :=
  fun w =>
    match m w with
    | (Return a, w') => k a w'
    | (Raise e, w') => (Raise e, w')
    end.

Definition lift {A} (r : result A) : io A := fun w => (r, w).

Notation "'let*' x ':=' m 'in' k" := (bind m (fun x => k))
  (at level 10, x pattern, m at level 100, k at level 200).
Notation "m ';;' k" := (bind m (fun _ => k))
  (at level 100, k at level 200, right associativity).

(** [try: m  except UnicodeDecodeError: ...]: the handler's case is [None]. *)
Definition except_decode {A} (m : io A) : io (option A) :=
  fun w =>
    match m w with
    | (Return a, w') => (Return (Some a), w')
    | (Raise UnicodeDecodeError, w') => (Return None, w')
    | (Raise e, w') => (Raise e, w')
    end.

(** [for x in l: body] *)
Fixpoint for_each {A} (l : list A) (body : A -> io unit) : io unit :=
  match l with
  | [] => ret tt
  | x :: l' => body x ;; for_each l' body
  end.

(** [[f x for x in l]] *)
Fixpoint comprehension {A B} (f : A -> io B) (l : list A) : io (list B) :=
  match l with
  | [] => ret []
  | x :: l' =>
      let* y := f x in
      let* ys := comprehension f l' in
      ret (y :: ys)
  end.

Definition log_open (file_path : str) (m : mode) (w : World) : World :=
  mkWorld (files w) (dirs w) (console w) (opened w ++ [(file_path, m)]).

(** [file.readlines()]: the text cut after every line feed. *)
Fixpoint splitlines (t : str) : list str :=
  match t with
  | [] => []
  | c :: t' =>
      if (c =? 10)%N then [c] :: splitlines t'
      else match splitlines t' with
           | [] => [[c]]
           | l :: ls => (c :: l) :: ls
           end
  end.

(** [open(file_path, 'r', encoding='utf8').readlines()] *)
Definition open_readlines (file_path : str) : io (list str) :=
  fun w =>
    let w' := log_open file_path ReadText w in
    match files w !! file_path with
    | None => (Raise FileNotFoundError, w)
    | Some (Binary _) => (Raise UnicodeDecodeError, w')
    | Some (Text t) => (Return (splitlines t), w')
    end.

(** [open(file_path, 'w', encoding='utf8').writelines(lines)] *)
Definition open_writelines (file_path : str) (lines : list str) : io unit :=
  fun w =>
    (Return tt,
     mkWorld (<[file_path := Text (concat lines)]> (files w)) (dirs w)
             (console w) (opened w ++ [(file_path, WriteText)])).

(** [path.isdir(p)] *)
Definition isdir (p : str) : io bool :=
  fun w => (Return (bool_decide (p ∈ dirs w)), w).

(** [mkdir(p)] *)
Definition mkdir (p : str) : io unit :=
  fun w => (Return tt, mkWorld (files w) ({[p]} ∪ dirs w) (console w) (opened w)).

(** [print(s)] *)
Definition print (s : str) : io unit :=
  fun w => (Return tt, mkWorld (files w) (dirs w) (console w ++ [s]) (opened w)).

(** [str(n)] for a count. *)
Definition str_of_nat (n : nat) : str :=
  py (NilZero.string_of_uint (Nat.to_uint n)).

(** ['{: <80}{: >20}'.format(a, b)]: [a] padded on the right to 80
    columns, [b] padded on the left to 20. *)
Definition format_report (a b : str) : str :=
  (a ++ repeat 32%N (80 - length a)) ++ (repeat 32%N (20 - length b) ++ b).

Section Program.

(** The Unicode database's answer for the code points above ASCII. *)
Variable unicode_alnum : N -> bool.

(** [requests.get(url, allow_redirects=True).content], stubbed by a fixed
    response per url. *)
Variable http_get : str -> data.

(** [os.path.join] *)
Variable path_join : str -> str -> str.

Definition isalnum_char (c : char) : bool :=
  if (c <? 128)%N then ascii_alnum c else unicode_alnum c.

(** [s.isalnum()]: non-empty and every character alphanumeric. *)
Definition isalnum (s : str) : bool :=
  match s with
  | [] => false
  | _ :: _ => forallb isalnum_char s
  end.

(** ** The span extractor *)

Definition NO_MATCHES_FOUND : Z := 9999999.

(** The literal ['https://cdn.discordapp.com']. *)
Definition cdn : str := py "https://cdn.discordapp.com".

Definition extract_url_from_text (text : str) : result (option (str * Z * Z)) :=
  let start_index := find text cdn 0 in
  if start_index =? -1 then Return None
  else
    bind_result (getitem text (start_index - 1)) (fun first_char =>
    if isalnum first_char then Return None
    else
      let end_index := find text first_char start_index in
      let space_index := find text (py " ") start_index in
      let paran_index := find text (py ")") start_index in
      let end_index := if end_index =? -1 then NO_MATCHES_FOUND else end_index in
      let space_index :=
        if space_index =? -1 then NO_MATCHES_FOUND else space_index in
      let paran_index :=
        if paran_index =? -1 then NO_MATCHES_FOUND else paran_index in
      let end_index := Z.min (Z.min end_index space_index) paran_index in
      let end_index :=
        if (end_index =? NO_MATCHES_FOUND) || (end_index =? -1)
        then len text - 1 else end_index in
      Return (Some (slice text (Some start_index) (Some end_index),
                    start_index, end_index))).

(** ** The filename deriver *)

Definition get_file_name_from_url (url : str) : option str :=
  let url := if endswith url (py "/") then slice url None (Some (-1)) else url in
  let url := replace url (py "https://") [] in
  let index := rfind url (py "/") + 1 in
  if index =? 0 then None
  else
    let file_name := slice url (Some index) None in
    let file_name :=
      if endswith file_name (py "?") then slice file_name None (Some (-1))
      else file_name in
    Some file_name.

(** ** The asset fetcher *)

Definition save_file_from_url (file_path url : str) : io unit :=
  fun w =>
    let response := http_get url in
    (Return tt,
     mkWorld (<[file_path := response]> (files w)) (dirs w) (console w)
             (opened w ++ [(file_path, WriteBinary)])).

(** ** The line rewriter *)

Definition update_file_url (text file_name : str) (start_index end_index : Z) : str :=
  let new_url := py "/" ++ file_name in
  slice text None (Some start_index) ++ new_url ++ slice text (Some end_index) None.

(** ** The file processor *)

Definition update_url_in_line (line project_path : str) (include_public_dir : bool)
  : io str :=
  let* extracted_url := lift (extract_url_from_text line) in
  match extracted_url with
  | None => ret line
  | Some (url, start_index, end_index) =>
      match get_file_name_from_url url with
      | None => ret line
      | Some file_name =>
          let public_dir := project_path ++ py "/public" in
          let* present := isdir public_dir in
          (if present then ret tt else mkdir public_dir) ;;
          let file_path := public_dir ++ py "/" ++ file_name in
          save_file_from_url file_path url ;;
          let file_name :=
            if include_public_dir then py "public/" ++ file_name else file_name in
          ret (update_file_url line file_name start_index end_index)
      end
  end.

Definition update_urls_in_file (file_path project_path : str)
    (include_public_dir : bool) : io unit :=
  let* read := except_decode (open_readlines file_path) in
  match read with
  | None => ret tt
  | Some lines =>
      let old_lines := lines in
      let* lines :=
        comprehension
          (fun line => update_url_in_line line project_path include_public_dir)
          lines in
      if bool_decide (old_lines = lines) then ret tt
      else
        let diff :=
          size ((list_to_set lines : gset str) ∖ list_to_set old_lines) in
        print (format_report file_path
                 (str_of_nat diff ++ py " Discord CDN URLs")) ;;
        open_writelines file_path lines
  end.

(** ** The tree walker *)

Definition ignored_dirs : list str :=
  [py ".git"; py "node_modules"; py "__pycache__"].

(** [True in [dir in file_path for dir in ignored_dirs]] *)
Definition ignored (file_path : str) : bool :=
  existsb (fun dir => contains file_path dir) ignored_dirs.

(** [walk] is what [os.walk(project_path)] yields during the run: one
    [(root, dirs, files)] per directory. *)
Definition update_urls_in_project (walk : list (str * list str * list str))
    (project_path : str) : io unit :=
  for_each walk (fun '(root, _, files) =>
    for_each files (fun file =>
      let file_path := path_join root file in
      if ignored file_path then ret tt
      else update_urls_in_file file_path project_path
             (endswith file_path (py ".md")))).

(** The call the script ends with. *)
Definition main (walk : list (str * list str * list str)) : io unit :=
  update_urls_in_project walk (py "E:\Projects\portfolio-site").

(** ** Derived views of the program *)

(** [NO_MATCHES_FOUND] in the place of an unsuccessful search. *)
Definition sentinel (i : Z) : Z :=
  if i =? -1 then NO_MATCHES_FOUND else i.

(** The end offset the extractor computes from the three searches, for
    the opening delimiter [c] and the start offset [s]. *)
Definition span_end (text : str) (c : char) (s : Z) : Z :=
  let m := Z.min (Z.min (sentinel (find text [c] s))
                        (sentinel (find text (py " ") s)))
                 (sentinel (find text (py ")") s)) in
  if (m =? NO_MATCHES_FOUND) || (m =? -1) then len text - 1 else m.

(** The world after [mkdir] (when needed) and [save_file_from_url] for one
    line. *)
Definition after_save (project_path file_name url : str) (w : World) : World :=
  let public_dir := project_path ++ py "/public" in
  let file_path := public_dir ++ py "/" ++ file_name in
  mkWorld (<[file_path := http_get url]> (files w))
          (if bool_decide (public_dir ∈ dirs w) then dirs w
           else {[public_dir]} ∪ dirs w)
          (console w) (opened w ++ [(file_path, WriteBinary)]).

(** The line [update_url_in_line] returns, the world left out. *)
Definition line_value (line : str) (flag : bool) : str :=
  match extract_url_from_text line with
  | Return (Some (url, s, e)) =>
      match get_file_name_from_url url with
      | Some file_name =>
          update_file_url line
            (if flag then py "public/" ++ file_name else file_name) s e
      | None => line
      end
  | _ => line
  end.

(** The file paths the tree walker hands to the file processor, in order. *)
Definition candidates (walk : list (str * list str * list str)) : list str :=
  flat_map (fun '(root, _, files) =>
              List.filter (fun file_path => negb (ignored file_path))
                          (map (path_join root) files)) walk.

End Program.

(** The entries [w'] has added to the log of [open] calls of [w]. *)
Definition new_opens (w w' : World) : list (str * mode) :=
  drop (length (opened w)) (opened w').

(** [w'] extends the log of [w] by entries that all satisfy [P]. *)
Definition opens (P : str * mode -> Prop) (w w' : World) : Prop :=
  exists new, opened w' = opened w ++ new /\ Forall P new.


(** The shape of what [readlines] returns: every line is a body without
    a line feed followed by one last character, which is a line feed for
    every line but possibly the last. *)
Fixpoint lines_shape (ls : list str) : Prop :=
  match ls with
  | [] => True
  | l :: ls' =>
      (exists (body : str) (z : char),
          l = body ++ [z] /\ (10%N ∉ body) /\ (z <> 10%N -> ls' = []))
      /\ lines_shape ls'
  end.

(** ** The specification's wording, for comparison

    The filename deriver in five steps.  Step 2 of [derive_reference]
    strips only a leading [https://]; [derive_reference_all] removes every
    occurrence of it. *)

(** Steps 1 and 5: strip one trailing [c] if present. *)
Fixpoint strip_trailing (c : char) (u : str) : str :=
  match u with
  | [] => []
  | d :: u' =>
      match u' with
      | [] => if (d =? c)%N then [] else [d]
      | _ :: _ => d :: strip_trailing c u'
      end
  end.

(** Step 2: strip the leading scheme-and-host prefix. *)
Definition strip_scheme (u : str) : str :=
  if startswith u (py "https://") then drop 8 u else u.

(** Steps 3 and 4: everything after the last [/]; none when there is no [/]. *)
Fixpoint after_last_slash (u : str) : option str :=
  match u with
  | [] => None
  | c :: u' =>
      match after_last_slash u' with
      | Some f => Some f
      | None => if (c =? 47)%N then Some u' else None
      end
  end.

Definition derive_reference (url : str) : option str :=
  strip_trailing 63 <$> after_last_slash (strip_scheme (strip_trailing 47 url)).

Definition derive_reference_all (url : str) : option str :=
  strip_trailing 63 <$>
    after_last_slash (replace (strip_trailing 47 url) (py "https://") []).

(** The count of the report as the specification words it: the distinct
    new lines at the positions where the new line differs from the
    original one. *)
Definition distinct_changed_lines (old_lines lines : list str) : nat :=
  size (list_to_set
          (omap (fun '(o, n) => if bool_decide (o = n) then None else Some n)
                (zip old_lines lines)) : gset str).

(** ** Concrete inputs for the closed examples *)

(** A Unicode table with no alphanumeric code point above ASCII. *)
Definition ascii_only : N -> bool := fun _ => false.

(** A stub of the network: every url answers the same three bytes. *)
Definition fixed_response : str -> data := fun _ => Binary [137; 80; 78]%N.

(** [posixpath.join] of a directory and a file name. *)
Definition posix_join (root file : str) : str := root ++ py "/" ++ file.

(** The one-character strings that do not fit in a quoted literal. *)
Definition dquote : str := [34%N].
Definition newline : str := [10%N].

(** A project whose only file lies under [.git] and holds a CDN link. *)
Definition git_walk : list (str * list str * list str) :=
  [(py "proj/.git", [], [py "config"])].

Definition git_world : World :=
  mkWorld {[ py "proj/.git/config" :=
               Text (py "url = https://cdn.discordapp.com/a.png" ++ newline) ]}
          ∅ [] [].

(** A file in which a link is followed by a line that already reads as
    the link's replacement. *)
Definition notes_lines : list str :=
  [py " https://cdn.discordapp.com/a.png" ++ newline; py " /a.png" ++ newline].

Definition notes_world : World :=
  mkWorld {[ py "notes.txt" := Text (concat notes_lines) ]} ∅ [] [].





(** A file with one quoted link in a line and a line without any. *)
Definition page_text : str :=
  (py "a " ++ dquote ++ py "https://cdn.discordapp.com/base/img.png" ++ dquote
     ++ py " b" ++ newline) ++ py "no link here".

Definition page_world : World :=
  mkWorld {[ py "proj/index.html" := Text page_text ]} ∅ [] [].

(** A project with one markdown file that embeds an image from the CDN. *)
Definition readme_line : str :=
  py "![alt](https://cdn.discordapp.com/x/logo.png " ++ dquote ++ py "t"
    ++ dquote ++ py ")".

Definition readme_walk : list (str * list str * list str) :=
  [(py "proj", [], [py "readme.md"])].

Definition readme_world : World :=
  mkWorld {[ py "proj/readme.md" := Text readme_line ]} ∅ [] [].



(** * Properties *)

#[local] Set Default Proof Using "Type".
#[local] Arguments N.eqb : simpl never.
#[local] Arguments Z.eqb : simpl never.
#[local] Arguments Z.ltb : simpl never.
#[local] Arguments Z.leb : simpl never.

(** ** Strings *)

Lemma len_nonneg (s : str) : 0 <= len s.
Proof. unfold len. lia. Qed.

Lemma startswith_iff (s p : str) :
  startswith s p = true <-> exists r, s = p ++ r.
Proof.
  revert s. induction p as [|c p IH]; intros s; simpl.
  - split; [intros _; by exists s | done].
  - destruct s as [|d s].
    + split; [done | intros [r Hr]; discriminate Hr].
    + rewrite andb_true_iff, N.eqb_eq, IH. split.
      * intros [-> [r ->]]. by exists r.
      * intros [r Hr]. injection Hr as -> ->. eauto.
Qed.

Lemma startswith_app (p r : str) : startswith (p ++ r) p = true.
Proof. apply startswith_iff. by exists r. Qed.

Lemma startswith_length (s p : str) :
  startswith s p = true -> (length p <= length s)%nat.
Proof.
  intros [r ->]%startswith_iff. rewrite length_app. lia.
Qed.

Lemma startswith_char (s : str) (c : char) :
  startswith s [c] = true <-> s !! 0%nat = Some c.
Proof.
  destruct s as [|d s]; simpl; [done|].
  rewrite andb_true_r, N.eqb_eq. split; [by intros -> | by intros [= ->]].
Qed.

Lemma startswith_drop_char (s : str) (k : nat) (c : char) :
  startswith (drop k s) [c] = true <-> s !! k = Some c.
Proof.
  rewrite startswith_char, lookup_drop. by rewrite Nat.add_0_r.
Qed.

Lemma first_occ_Some (sub s : str) (k : nat) :
  first_occ sub s = Some k ->
  (k <= length s)%nat /\ startswith (drop k s) sub = true /\
  forall j, (j < k)%nat -> startswith (drop j s) sub = false.
Proof.
  revert k. induction s as [|c s IH]; intros k; simpl.
  - destruct (startswith [] sub) eqn:E; [|done].
    intros [= <-]. split; [done | split; [done | lia]].
  - destruct (startswith (c :: s) sub) eqn:E.
    + intros [= <-]. split; [lia | split; [done | lia]].
    + destruct (first_occ sub s) as [k'|]; [|done].
      intros [= <-]. destruct (IH k' eq_refl) as (Hk & Hs & Hmin).
      split; [simpl; lia | split; [done |]].
      intros [|j] Hj; simpl; [done | apply Hmin; lia].
Qed.

Lemma first_occ_None (sub s : str) :
  first_occ sub s = None -> forall j, startswith (drop j s) sub = false.
Proof.
  induction s as [|c s IH]; simpl.
  - destruct (startswith [] sub) eqn:E; [done|]. intros _ j. by rewrite drop_nil.
  - destruct (startswith (c :: s) sub) eqn:E; [done|].
    destruct (first_occ sub s); [done|]. intros _ [|j]; simpl; auto.
Qed.

Lemma first_occ_is_Some (sub s : str) (k : nat) :
  (k <= length s)%nat -> startswith (drop k s) sub = true ->
  exists k', first_occ sub s = Some k' /\ (k' <= k)%nat.
Proof.
  intros Hk Hs. destruct (first_occ sub s) as [k'|] eqn:E.
  - exists k'. split; [done|].
    destruct (first_occ_Some _ _ _ E) as (_ & _ & Hmin).
    destruct (decide (k' <= k)%nat); [done|].
    rewrite Hmin in Hs by lia. done.
  - by rewrite (first_occ_None _ _ E) in Hs.
Qed.

Lemma last_occ_None (sub s : str) :
  last_occ sub s = None -> forall j, startswith (drop j s) sub = false.
Proof.
  induction s as [|d s IHs]; intros E j; simpl in *.
  - rewrite drop_nil. by destruct (startswith [] sub).
  - destruct (last_occ sub s) eqn:E2; [done|].
    destruct (startswith (d :: s) sub) eqn:E3; [done|].
    destruct j; simpl; auto.
Qed.

Lemma last_occ_Some (sub s : str) (k : nat) :
  last_occ sub s = Some k ->
  (k <= length s)%nat /\ startswith (drop k s) sub = true /\
  forall j, (k < j <= length s)%nat -> startswith (drop j s) sub = false.
Proof.
  revert k. induction s as [|c s IH]; intros k; simpl.
  - destruct (startswith [] sub) eqn:E; [|done].
    intros [= <-]. split; [done | split; [done | simpl; lia]].
  - destruct (last_occ sub s) as [k'|] eqn:E.
    + intros [= <-]. destruct (IH k' eq_refl) as (Hk & Hs & Hmax).
      split; [simpl; lia | split; [done |]].
      intros [|j] Hj; [lia|]. simpl. apply Hmax. simpl in Hj. lia.
    + destruct (startswith (c :: s) sub) eqn:E'; [|done].
      intros [= <-]. split; [simpl; lia | split; [done |]].
      intros [|j] Hj; [lia|]. simpl. by apply last_occ_None.
Qed.

(** [find] from a non-negative start: the result is -1 or the first
    occurrence at or after the start. *)
Lemma find_found (s sub : str) (a r : Z) :
  0 <= a -> find s sub a = r -> r <> -1 ->
  a <= r /\ r <= len s /\ startswith (drop (Z.to_nat r) s) sub = true /\
  forall j, a <= j < r -> startswith (drop (Z.to_nat j) s) sub = false.
Proof.
  intros Ha <- Hr. unfold find, from_end in *.
  destruct (Z.ltb_spec a 0) as [?|_]; [lia|].
  rewrite Z.max_r in * by lia.
  destruct (Z.ltb_spec (len s) a) as [?|Hlen]; [done|].
  destruct (first_occ sub (drop (Z.to_nat a) s)) as [k|] eqn:E; [|done].
  destruct (first_occ_Some _ _ _ E) as (Hk & Hs & Hmin).
  rewrite length_drop in Hk. rewrite drop_drop in Hs. unfold len in *.
  split; [lia | split; [lia | split]].
  - by replace (Z.to_nat (a + Z.of_nat k)) with (Z.to_nat a + k)%nat by lia.
  - intros j Hj. specialize (Hmin (Z.to_nat j - Z.to_nat a)%nat).
    rewrite drop_drop in Hmin.
    replace (Z.to_nat a + (Z.to_nat j - Z.to_nat a))%nat with (Z.to_nat j) in Hmin by lia.
    apply Hmin. lia.
Qed.

Lemma find_absent (s sub : str) (a : Z) :
  0 <= a <= len s -> find s sub a = -1 ->
  forall j, a <= j -> startswith (drop (Z.to_nat j) s) sub = false.
Proof.
  intros Ha Hf j Hj. unfold find, from_end in *.
  destruct (Z.ltb_spec a 0) as [?|_]; [lia|].
  rewrite Z.max_r in * by lia.
  destruct (Z.ltb_spec (len s) a) as [?|Hlen]; [lia|].
  destruct (first_occ sub (drop (Z.to_nat a) s)) as [k|] eqn:E; [lia|].
  pose proof (first_occ_None _ _ E (Z.to_nat j - Z.to_nat a)%nat) as H.
  rewrite drop_drop in H.
  by replace (Z.to_nat a + (Z.to_nat j - Z.to_nat a))%nat with (Z.to_nat j) in H by lia.
Qed.

Lemma find_char_found (s : str) (c : char) (a r : Z) :
  0 <= a -> find s [c] a = r -> r <> -1 ->
  a <= r < len s /\ s !! Z.to_nat r = Some c.
Proof.
  intros Ha Hf Hr. destruct (find_found _ _ _ _ Ha Hf Hr) as (H1 & H2 & H3 & _).
  apply startswith_drop_char in H3. split; [|done].
  apply lookup_lt_Some in H3. unfold len in *. lia.
Qed.

Lemma slice_span (s : str) (a b : Z) :
  0 <= a -> a <= b -> b <= len s ->
  slice s (Some a) (Some b) = take (Z.to_nat b - Z.to_nat a) (drop (Z.to_nat a) s).
Proof.
  intros Ha Hab Hb. unfold slice, clamp, from_end.
  destruct (Z.ltb_spec a 0); [lia|]. destruct (Z.ltb_spec b 0); [lia|].
  do 2 f_equal; unfold len in *; lia.
Qed.

Lemma slice_prefix (s : str) (b : Z) :
  0 <= b -> slice s None (Some b) = take (Z.to_nat b) s.
Proof.
  intros Hb. unfold slice, clamp, from_end.
  destruct (Z.ltb_spec b 0); [lia|]. rewrite drop_0, Nat.sub_0_r.
  destruct (Z.le_gt_cases b (len s)).
  - f_equal. lia.
  - rewrite Z.min_l by lia. unfold len in *.
    rewrite Nat2Z.id, !take_ge; [done | lia | lia].
Qed.

Lemma slice_suffix (s : str) (a : Z) :
  0 <= a -> slice s (Some a) None = drop (Z.to_nat a) s.
Proof.
  intros Ha. unfold slice, clamp, from_end.
  destruct (Z.ltb_spec a 0); [lia|].
  destruct (Z.le_gt_cases a (len s)).
  - rewrite Z.max_r, Z.min_r by lia. apply take_ge. rewrite length_drop. lia.
  - rewrite Z.min_l by lia. unfold len in *.
    rewrite Nat2Z.id, !drop_ge by lia. by rewrite take_nil.
Qed.

(** [s[:-1]] drops the last character. *)
Lemma slice_drop_last (s : str) (c : char) :
  slice (s ++ [c]) None (Some (-1)) = s.
Proof.
  unfold slice, clamp, from_end, len. simpl. rewrite length_app. simpl.
  rewrite drop_0, Nat.sub_0_r.
  replace (Z.to_nat _) with (length s) by lia.
  by rewrite take_app_length.
Qed.

Lemma endswith_iff (s p : str) :
  endswith s p = true <-> exists r, s = r ++ p.
Proof.
  unfold endswith. rewrite andb_true_iff, Nat.leb_le, startswith_iff. split.
  - intros [Hl [r Hr]]. exists (take (length s - length p) s).
    assert (r = []) as ->.
    { apply (f_equal length) in Hr. rewrite length_drop, length_app in Hr.
      apply length_zero_iff_nil. lia. }
    rewrite app_nil_r in Hr. rewrite <- Hr at 2. by rewrite take_drop.
  - intros [r ->]. rewrite length_app. split; [lia|]. exists [].
    replace (length r + length p - length p)%nat with (length r) by lia.
    by rewrite drop_app_length, app_nil_r.
Qed.

(** ** The span extractor *)

Section ExtractorFacts.

Variable unicode_alnum : N -> bool.

Local Abbreviation extract := (extract_url_from_text unicode_alnum).
Local Abbreviation alnum := (isalnum_char unicode_alnum).

Lemma getitem_Return (s fc : str) (i : Z) :
  getitem s i = Return fc ->
  exists c, fc = [c] /\ 0 <= from_end s i < len s /\
            s !! Z.to_nat (from_end s i) = Some c.
Proof.
  unfold getitem. destruct (Z.ltb_spec (from_end s i) 0); [done|].
  destruct (Z.leb_spec (len s) (from_end s i)); [done|]. simpl.
  destruct (s !! _) as [c|] eqn:E; [|done].
  intros [= <-]. exists c. repeat split; auto; lia.
Qed.

Lemma extract_Some (text url : str) (s e : Z) :
  extract text = Return (Some (url, s, e)) ->
  exists c,
    s = find text cdn 0 /\ s <> -1 /\
    getitem text (s - 1) = Return [c] /\ alnum c = false /\
    e = span_end text c s /\
    url = slice text (Some s) (Some e).
Proof.
  unfold extract_url_from_text.
  destruct (Z.eqb_spec (find text cdn 0) (-1)) as [|Hs]; [done|].
  destruct (getitem text (find text cdn 0 - 1)) as [fc|] eqn:Hg; [|done].
  simpl. destruct (getitem_Return _ _ _ Hg) as (c & -> & _).
  simpl. rewrite andb_true_r.
  destruct (alnum c) eqn:Hc; [done|].
  intros [= <- <- <-]. exists c. by repeat split.
Qed.

(** Where the prefix was found, the text holds it. *)
Lemma found_prefix (text : str) (s : Z) :
  s = find text cdn 0 -> s <> -1 ->
  0 <= s /\ s + 26 <= len text /\
  startswith (drop (Z.to_nat s) text) cdn = true /\
  text !! Z.to_nat s = Some 104%N.
Proof.
  intros Hs Hne. symmetry in Hs.
  destruct (find_found _ _ _ _ (Z.le_refl 0) Hs Hne) as (H0 & _ & Hp & _).
  pose proof (startswith_length _ _ Hp) as Hl. rewrite length_drop in Hl.
  change (length cdn) with 26%nat in Hl. unfold len.
  split; [done | split; [lia | split; [done|]]].
  apply startswith_iff in Hp as [r Hr].
  rewrite <- (Nat.add_0_r (Z.to_nat s)), <- lookup_drop, Hr. done.
Qed.

(** A search for a one-character delimiter other than [h] from the start
    of the prefix is either unsuccessful or lands behind the start. *)
Lemma delimiter_index (text : str) (s : Z) (d : char) :
  0 <= s -> text !! Z.to_nat s = Some 104%N -> d <> 104%N ->
  sentinel (find text [d] s) = NO_MATCHES_FOUND \/
  (s < sentinel (find text [d] s) < len text /\
   text !! Z.to_nat (sentinel (find text [d] s)) = Some d).
Proof.
  intros Hs Hh Hd. unfold sentinel.
  destruct (Z.eqb_spec (find text [d] s) (-1)) as [|Hf]; [by left|]. right.
  destruct (find_char_found _ _ _ _ Hs eq_refl Hf) as [Hr Hl].
  split; [|done].
  destruct (decide (find text [d] s = s)) as [E|]; [|lia].
  rewrite E in Hl. congruence.
Qed.

Lemma alnum_h : alnum 104 = true.
Proof. reflexivity. Qed.

Lemma extract_bounds (text url : str) (s e : Z) :
  extract text = Return (Some (url, s, e)) ->
  0 <= s /\ s < e /\ e < len text.
Proof.
  intros (c & Hs & Hne & Hg & Hc & He & _)%extract_Some.
  destruct (found_prefix _ _ Hs Hne) as (H0 & Hlen & _ & Hh).
  assert (c <> 104%N) as Hc' by (intros ->; by rewrite alnum_h in Hc).
  pose proof (delimiter_index text s c H0 Hh Hc') as D1.
  pose proof (delimiter_index text s 32%N H0 Hh ltac:(done)) as D2.
  pose proof (delimiter_index text s 41%N H0 Hh ltac:(done)) as D3.
  unfold span_end in He. change (py " ") with [32%N] in He.
  change (py ")") with [41%N] in He.
  destruct (Z.eqb_spec (Z.min (Z.min (sentinel (find text [c] s))
    (sentinel (find text [32%N] s))) (sentinel (find text [41%N] s)))
    NO_MATCHES_FOUND) as [E1|E1]; simpl in He; [lia|].
  destruct (Z.eqb_spec (Z.min (Z.min (sentinel (find text [c] s))
    (sentinel (find text [32%N] s))) (sentinel (find text [41%N] s))) (-1))
    as [E2|E2]; [lia|].
  unfold NO_MATCHES_FOUND in *. lia.
Qed.

End ExtractorFacts.

(** ** The filename deriver *)

Lemma endswith_char (s : str) (c : char) :
  endswith s [c] = true <-> exists r, s = r ++ [c].
Proof. apply endswith_iff. Qed.

Lemma strip_trailing_snoc (c : char) (r : str) :
  strip_trailing c (r ++ [c]) = r.
Proof.
  induction r as [|d r IH]; simpl.
  - by rewrite N.eqb_refl.
  - rewrite IH. by destruct r.
Qed.

Lemma strip_trailing_other (c : char) (u : str) :
  endswith u [c] = false -> strip_trailing c u = u.
Proof.
  induction u as [|d u IH]; [done|]. intros He. simpl.
  destruct u as [|d' u].
  - destruct (N.eqb_spec d c) as [->|]; [|done].
    by rewrite (proj2 (endswith_char [c] c)) in He by (by exists []).
  - f_equal. apply IH. destruct (endswith (d' :: u) [c]) eqn:E; [|done].
    apply endswith_char in E as [r Hr].
    rewrite (proj2 (endswith_char (d :: d' :: u) c)) in He; [done|].
    exists (d :: r). by rewrite Hr.
Qed.

(** [u[:-1] if u.endswith(c) else u] strips one trailing [c]. *)
Lemma strip_by_slice (c : char) (u : str) :
  (if endswith u [c] then slice u None (Some (-1)) else u) = strip_trailing c u.
Proof.
  destruct (endswith u [c]) eqn:E.
  - apply endswith_char in E as [r ->].
    by rewrite slice_drop_last, strip_trailing_snoc.
  - by rewrite strip_trailing_other.
Qed.

Lemma after_last_slash_occ (u : str) :
  after_last_slash u = (fun k => drop (S k) u) <$> last_occ [47%N] u.
Proof.
  induction u as [|c u IH]; [done|]. simpl. rewrite IH.
  destruct (last_occ [47%N] u) as [k|]; simpl; [done|].
  rewrite andb_true_r, (N.eqb_sym 47 c). by destruct (c =? 47)%N.
Qed.

(** The code's index arithmetic on [rfind] is "after the last slash". *)
Lemma rfind_slice (u : str) :
  (if rfind u (py "/") + 1 =? 0 then None
   else Some (slice u (Some (rfind u (py "/") + 1)) None)) = after_last_slash u.
Proof.
  rewrite after_last_slash_occ. unfold rfind. change (py "/") with [47%N].
  destruct (last_occ [47%N] u) as [k|]; simpl; [|done].
  destruct (Z.eqb_spec (Z.of_nat k + 1) 0); [lia|].
  rewrite slice_suffix by lia. do 2 f_equal. lia.
Qed.

Lemma get_file_name_steps (url : str) :
  get_file_name_from_url url = derive_reference_all url.
Proof.
  unfold get_file_name_from_url, derive_reference_all.
  change (py "/") with [47%N]. rewrite strip_by_slice.
  pose proof (rfind_slice (replace (strip_trailing 47 url) (py "https://") [])) as H.
  change (py "/") with [47%N] in H. rewrite <- H.
  destruct (_ =? 0); [done|]. simpl. f_equal.
  change (py "?") with [63%N]. apply strip_by_slice.
Qed.

Lemma strip_trailing_sub (c d : char) (u : str) :
  d ∈ strip_trailing c u -> d ∈ u.
Proof.
  induction u as [|x u IH]; [done|]. simpl. destruct u as [|y u].
  - destruct (x =? c)%N; [by intros ?%elem_of_nil | done].
  - rewrite !elem_of_cons. intros [->|H]; [by left | right].
    apply elem_of_cons. by apply IH.
Qed.

Lemma after_last_slash_free (u f : str) :
  after_last_slash u = Some f -> 47%N ∉ f.
Proof.
  revert f. induction u as [|c u IH]; [done|]. simpl. intros f.
  destruct (after_last_slash u) as [g|] eqn:E.
  - intros [= <-]. by apply IH.
  - destruct (c =? 47)%N; [|done]. intros [= <-].
    clear -E. induction u as [|d u IHu]; [by intros ?%elem_of_nil|].
    simpl in E. destruct (after_last_slash u); [done|].
    destruct (N.eqb_spec d 47); [done|].
    rewrite elem_of_cons. intros [?|?]; [done | by apply IHu].
Qed.

Lemma after_last_slash_sub (u f : str) (d : char) :
  after_last_slash u = Some f -> d ∈ f -> d ∈ u.
Proof.
  revert f. induction u as [|c u IH]; [done|]. simpl. intros f.
  destruct (after_last_slash u) as [g|] eqn:E.
  - intros [= <-] Hd. right. by apply (IH g).
  - destruct (c =? 47)%N; [|done]. intros [= <-] Hd. by right.
Qed.

(** ** Claims about the span extractor *)

Section ExtractorClaims.

Variable unicode_alnum : N -> bool.

Local Abbreviation extract := (extract_url_from_text unicode_alnum).
Local Abbreviation alnum := (isalnum_char unicode_alnum).

(** The extractor never raises: where the prefix is found the text is not
    empty, so [text[start_index - 1]] is in range (at [start_index = 0]
    it is the last character). *)
Lemma extract_total (text : str) :
  exists r, extract text = Return r.
Proof.
  unfold extract_url_from_text.
  destruct (Z.eqb_spec (find text cdn 0) (-1)) as [|Hs]; [by eexists|].
  destruct (found_prefix text _ eq_refl Hs) as (H0 & Hl & _ & _).
  set (s := find text cdn 0) in *.
  assert (0 <= from_end text (s - 1) < len text) as Hr.
  { unfold from_end. destruct (Z.ltb_spec (s - 1) 0); lia. }
  unfold getitem.
  destruct (Z.ltb_spec (from_end text (s - 1)) 0); [lia|].
  destruct (Z.leb_spec (len text) (from_end text (s - 1))); [lia|]. simpl.
  destruct (lookup_lt_is_Some_2 text (Z.to_nat (from_end text (s - 1))))
    as [c ->]; [unfold len in *; lia|].
  simpl. destruct (alnum c && true); by eexists.
Qed.

(** C8: a span returned by [extract_url_from_text] satisfies
    [0 <= start < end <= len(line)], and when [start > 0] the character at
    [start - 1] is not alphanumeric. *)
Theorem span_offsets_invariant (text url : str) (s e : Z) :
  extract text = Return (Some (url, s, e)) ->
  0 <= s /\ s < e /\ e <= len text /\
  (0 < s -> exists c, text !! Z.to_nat (s - 1) = Some c /\ alnum c = false).
Proof.
  intros H. destruct (extract_bounds _ _ _ _ _ H) as (H0 & Hse & He).
  split; [done | split; [done | split; [lia|]]].
  intros Hpos. apply extract_Some in H as (c & _ & _ & Hg & Hc & _).
  exists c. split; [|done].
  apply getitem_Return in Hg as (c' & [= <-] & _ & Hl).
  unfold from_end in Hl. by destruct (Z.ltb_spec (s - 1) 0); [lia|].
Qed.

(** C1 (the code at a line that starts with the prefix and ends in a
    letter): [text[start_index - 1]] is [text[-1]], the last character of
    the line, so the alphanumeric test runs on it and the URL is refused. *)
Theorem offset_zero_tests_last_character :
  find (py "https://cdn.discordapp.com/a.png") cdn 0 = 0 /\
  getitem (py "https://cdn.discordapp.com/a.png") (0 - 1) = Return (py "g") /\
  extract (py "https://cdn.discordapp.com/a.png") = Return None.
Proof. by vm_compute. Qed.

(** C3 (the code at a line whose URL follows a colon): the search for the
    closing delimiter starts inside the prefix and stops at its own colon,
    so the url text is [https], which does not begin with the prefix. *)
Theorem span_url_cut_inside_prefix :
  extract (py "link:https://cdn.discordapp.com/a.png" ++ newline)
    = Return (Some (py "https", 5, 10)) /\
  startswith (py "https") cdn = false.
Proof. by vm_compute. Qed.

End ExtractorClaims.

Lemma span_offsets_invariant_witness :
  0 <= 3 /\ 3 < 35 /\
  35 <= len (py "a (https://cdn.discordapp.com/a.png) b" ++ newline) /\
  (0 < 3 -> exists c,
      (py "a (https://cdn.discordapp.com/a.png) b" ++ newline) !! Z.to_nat (3 - 1)
        = Some c /\ isalnum_char ascii_only c = false).
Proof.
  apply (span_offsets_invariant ascii_only
           (py "a (https://cdn.discordapp.com/a.png) b" ++ newline)
           (py "https://cdn.discordapp.com/a.png") 3 35).
  vm_compute. reflexivity.
Defined.

(** ** Claims about the filename deriver *)

Lemma replace_from_absent (n : nat) (s old new : str) :
  (forall j, startswith (drop j s) old = false) ->
  replace_from n s old new = s.
Proof.
  revert s. induction n as [|n IH]; intros s H; [done|]. simpl.
  rewrite (H 0%nat : startswith s old = false).
  destruct s as [|c s]; [done|]. f_equal. apply IH.
  intros j. apply (H (S j)).
Qed.

(** Without an occurrence past offset 0, [replace] strips at most the
    leading scheme. *)
Lemma replace_leading_only (u : str) :
  find u (py "https://") 1 = -1 ->
  replace u (py "https://") [] = strip_scheme u.
Proof.
  intros Hf. unfold strip_scheme.
  assert (forall j, (1 <= j)%nat -> startswith (drop j u) (py "https://") = false)
    as Hno.
  { destruct (Z.le_gt_cases 1 (len u)) as [Hl|Hl].
    - intros j Hj. pose proof (find_absent u _ 1 ltac:(lia) Hf (Z.of_nat j) ltac:(lia)) as H.
      by rewrite Nat2Z.id in H.
    - intros j Hj. rewrite drop_ge; [done | unfold len in *; lia]. }
  change (replace u (py "https://") []) with
    (replace_from (length u) u (py "https://") []).
  destruct u as [|c u]; [done|].
  change (length (c :: u)) with (S (length u)).
  cbn [replace_from]. destruct (startswith (c :: u) (py "https://")) eqn:E.
  - rewrite app_nil_l. apply replace_from_absent. intros j.
    rewrite drop_drop. apply Hno. simpl. lia.
  - f_equal. apply replace_from_absent. intros j. apply (Hno (S j)). lia.
Qed.

Lemma get_file_name_no_slash (url fn : str) :
  get_file_name_from_url url = Some fn -> 47%N ∉ fn.
Proof.
  rewrite get_file_name_steps. unfold derive_reference_all.
  destruct (after_last_slash _) as [f|] eqn:E; [|done].
  intros [= <-] H. apply strip_trailing_sub in H.
  by apply (after_last_slash_free _ _ E).
Qed.

(** C6, as amended: the code is the five-step definition with step 2
    removing every occurrence of [https://]; it agrees with the definition
    as worded (leading prefix only) whenever [https://] does not occur past
    offset 0 once the trailing slash is stripped. *)
Theorem deriver_refines_reference (url : str) :
  get_file_name_from_url url = derive_reference_all url /\
  (find (strip_trailing 47 url) (py "https://") 1 = -1 ->
   get_file_name_from_url url = derive_reference url).
Proof.
  split; [apply get_file_name_steps|]. intros H.
  rewrite get_file_name_steps. unfold derive_reference_all, derive_reference.
  by rewrite replace_leading_only.
Qed.

Lemma deriver_refines_reference_witness :
  get_file_name_from_url (py "https://cdn.discordapp.com/base/img.png?")
    = derive_reference_all (py "https://cdn.discordapp.com/base/img.png?") /\
  get_file_name_from_url (py "https://cdn.discordapp.com/base/img.png?")
    = derive_reference (py "https://cdn.discordapp.com/base/img.png?").
Proof.
  destruct (deriver_refines_reference
              (py "https://cdn.discordapp.com/base/img.png?")) as [H1 H2].
  split; [exact H1 | apply H2; vm_compute; reflexivity].
Defined.

(** C6, the claim as stated fails: an inner [https://] is removed too, which
    joins the text around it. *)
Lemma deriver_differs_from_reference :
  get_file_name_from_url (py "https://cdn.discordapp.com/x/ahttps://b.png")
    = Some (py "ab.png") /\
  derive_reference (py "https://cdn.discordapp.com/x/ahttps://b.png")
    = Some (py "b.png") /\
  get_file_name_from_url (py "https://cdn.discordapp.com/x/ahttps://b.png")
    <> derive_reference (py "https://cdn.discordapp.com/x/ahttps://b.png").
Proof. by vm_compute. Qed.

Lemma last_occ_char_absent (c : char) (b : str) :
  c ∉ b -> last_occ [c] b = None.
Proof.
  induction b as [|d b IH]; [done|]. rewrite not_elem_of_cons. intros [Hd Hb].
  simpl. rewrite (IH Hb). destruct (N.eqb_spec c d); [done|done].
Qed.

Lemma last_occ_char_app (c : char) (a b : str) :
  c ∉ b -> last_occ [c] (a ++ c :: b) = Some (length a).
Proof.
  intros Hb. induction a as [|d a IH]; simpl.
  - by rewrite (last_occ_char_absent _ _ Hb), N.eqb_refl.
  - by rewrite IH.
Qed.

(** ** The line rewriter and the file processor *)

Section ProgramFacts.

Variable unicode_alnum : N -> bool.
Variable http_get : str -> data.
Variable path_join : str -> str -> str.

Local Abbreviation extract := (extract_url_from_text unicode_alnum).
Local Abbreviation update_line := (update_url_in_line unicode_alnum http_get).
Local Abbreviation update_file := (update_urls_in_file unicode_alnum http_get).
Local Abbreviation update_project :=
  (update_urls_in_project unicode_alnum http_get path_join).

(** What one call of [update_url_in_line] returns and does. *)
Lemma update_url_in_line_run (line project_path : str) (flag : bool) (w : World) :
  update_line line project_path flag w =
  match extract line with
  | Return (Some (url, s, e)) =>
      match get_file_name_from_url url with
      | Some file_name =>
          (Return (update_file_url line
                     (if flag then py "public/" ++ file_name else file_name) s e),
           after_save http_get project_path file_name url w)
      | None => (Return line, w)
      end
  | Return None => (Return line, w)
  | Raise x => (Raise x, w)
  end.
Proof.
  unfold update_url_in_line, bind, lift.
  destruct (extract line) as [[[[url s] e]|]|x]; [|done|done].
  destruct (get_file_name_from_url url) as [fn|]; [|done].
  unfold isdir, mkdir, save_file_from_url, ret, after_save. simpl.
  by destruct (bool_decide _).
Qed.


(** Monad laws of [io], pointwise in the world. *)
Lemma for_each_app {A} (l1 l2 : list A) (body : A -> io unit) (w : World) :
  for_each (l1 ++ l2) body w = (for_each l1 body ;; for_each l2 body) w.
Proof.
  revert w. induction l1 as [|x l1 IH]; intros w; simpl.
  - done.
  - unfold bind. destruct (body x w) as [[[]|e] w']; [|done].
    by rewrite IH.
Qed.

Lemma for_each_files (root : str) (fs : list str) (body : str -> io unit)
    (w : World) :
  for_each fs (fun file =>
                 if ignored (path_join root file) then ret tt
                 else body (path_join root file)) w
  = for_each (List.filter (fun p => negb (ignored p)) (map (path_join root) fs))
      body w.
Proof.
  revert w. induction fs as [|f fs IH]; intros w; simpl; [done|].
  destruct (ignored (path_join root f)); simpl.
  - unfold bind at 1, ret. apply IH.
  - unfold bind. destruct (body (path_join root f) w) as [[[]|e] w']; [apply IH | done].
Qed.

(** The tree walker is the file processor run on the candidate paths, with
    the public-directory flag set for paths ending in [.md]. *)
Lemma update_urls_in_project_run (walk : list (str * list str * list str))
    (project_path : str) (w : World) :
  update_project walk project_path w
  = for_each (candidates path_join walk)
      (fun file_path =>
         update_file file_path project_path (endswith file_path (py ".md"))) w.
Proof.
  unfold update_urls_in_project, candidates.
  revert w. induction walk as [|[[root ds] fs] walk IH]; intros w; [done|].
  cbn [for_each flat_map]. rewrite for_each_app. unfold bind at 1 2.
  rewrite (for_each_files root fs
             (fun p => update_file p project_path (endswith p (py ".md")))).
  destruct (for_each _ _ w) as [[[]|e] w']; [apply IH | done].
Qed.

End ProgramFacts.

Lemma contains_iff (s sub : str) :
  contains s sub = true <-> exists a b, s = a ++ sub ++ b.
Proof.
  unfold contains. rewrite negb_true_iff, Z.eqb_neq. split.
  - intros H. destruct (find_found s sub 0 _ (Z.le_refl 0) eq_refl H)
      as (_ & _ & [r Hr]%startswith_iff & _).
    exists (take (Z.to_nat (find s sub 0)) s), r.
    by rewrite <- Hr, take_drop.
  - intros (a & b & ->). unfold find, from_end.
    change (0 <? 0) with false. cbn iota. change (Z.max 0 0) with 0.
    pose proof (len_nonneg (a ++ sub ++ b)).
    destruct (Z.ltb_spec (len (a ++ sub ++ b)) 0); [lia|].
    change (Z.to_nat 0) with 0%nat. rewrite drop_0.
    destruct (first_occ_is_Some sub (a ++ sub ++ b) (length a)) as (k & -> & _).
    + rewrite length_app. lia.
    + rewrite drop_app_length. apply startswith_app.
    + lia.
Qed.

(** A path is ignored exactly when one of the three fragments occurs in it. *)
Lemma ignored_iff (file_path : str) :
  ignored file_path = true <->
  exists d a b, d ∈ ignored_dirs /\ file_path = a ++ d ++ b.
Proof.
  unfold ignored. rewrite existsb_exists. split.
  - intros (d & Hd%list_elem_of_In & (a & b & ->)%contains_iff). by exists d, a, b.
  - intros (d & a & b & Hd & ->). exists d. split; [by apply list_elem_of_In|].
    apply contains_iff. by exists a, b.
Qed.

Lemma candidates_not_ignored (path_join : str -> str -> str)
    (walk : list (str * list str * list str)) (file_path : str) :
  file_path ∈ candidates path_join walk -> ignored file_path = false.
Proof.
  unfold candidates. rewrite list_elem_of_In, in_flat_map.
  intros ([[root ds] fs] & _ & H). apply filter_In in H as [_ H].
  by apply negb_true_iff.
Qed.

(** ** The log of [open] calls *)

Lemma opens_refl (P : str * mode -> Prop) (w w' : World) :
  opened w' = opened w -> opens P w w'.
Proof. intros H. exists []. by rewrite app_nil_r. Qed.

Lemma opens_trans (P : str * mode -> Prop) (w1 w2 w3 : World) :
  opens P w1 w2 -> opens P w2 w3 -> opens P w1 w3.
Proof.
  intros (n1 & H1 & F1) (n2 & H2 & F2). exists (n1 ++ n2).
  rewrite H2, H1, app_assoc. split; [done | by apply Forall_app].
Qed.

Lemma opens_weaken (P Q : str * mode -> Prop) (w w' : World) :
  (forall x, P x -> Q x) -> opens P w w' -> opens Q w w'.
Proof.
  intros H (n & Hn & F). exists n. split; [done|]. by eapply Forall_impl.
Qed.

Lemma opens_one (P : str * mode -> Prop) (w w' : World) (x : str * mode) :
  opened w' = opened w ++ [x] -> P x -> opens P w w'.
Proof. intros H Hx. exists [x]. split; [done | by constructor]. Qed.

Lemma opens_new (P : str * mode -> Prop) (w w' : World) :
  opens P w w' -> Forall P (new_opens w w').
Proof.
  intros (n & Hn & F). unfold new_opens. by rewrite Hn, drop_app_length.
Qed.

Section LogFacts.

Variable unicode_alnum : N -> bool.
Variable http_get : str -> data.
Variable path_join : str -> str -> str.

Local Abbreviation update_line := (update_url_in_line unicode_alnum http_get).
Local Abbreviation update_file := (update_urls_in_file unicode_alnum http_get).
Local Abbreviation update_project :=
  (update_urls_in_project unicode_alnum http_get path_join).

Lemma update_line_opens (line pp : str) (flag : bool) (w : World) :
  opens (fun x => x.2 = WriteBinary) w (update_line line pp flag w).2.
Proof.
  rewrite update_url_in_line_run.
  destruct (extract_url_from_text _ line) as [[[[url s] e]|]|x];
    [|by apply opens_refl..].
  destruct (get_file_name_from_url url) as [fn|]; [|by apply opens_refl].
  by eapply opens_one.
Qed.

Lemma comprehension_opens (pp : str) (flag : bool) (lines : list str) (w : World) :
  opens (fun x => x.2 = WriteBinary) w
    (comprehension (fun line => update_line line pp flag) lines w).2.
Proof.
  revert w. induction lines as [|l lines IH]; intros w; simpl.
  - by apply opens_refl.
  - unfold bind at 1. pose proof (update_line_opens l pp flag w) as H1.
    destruct (update_line l pp flag w) as [[y|e] w1]; [|done]. simpl in H1.
    unfold bind at 1. pose proof (IH w1) as H2.
    destruct (comprehension _ lines w1) as [[ys|e] w2]; simpl in *;
      by eapply opens_trans.
Qed.

(** The file processor opens its own file (to read, to write) and the
    asset fetcher's destinations (binary), nothing else. *)
Lemma update_file_opens (file_path pp : str) (flag : bool) (w : World) :
  opens (fun x => x.2 = WriteBinary \/ x.1 = file_path) w
    (update_file file_path pp flag w).2.
Proof.
  unfold update_urls_in_file, bind at 1, except_decode, open_readlines.
  destruct (files w !! file_path) as [[t|b]|] eqn:E; simpl;
    [| eapply opens_one; [done | by right] | by apply opens_refl].
  set (w1 := log_open file_path ReadText w).
  assert (opens (fun x => x.2 = WriteBinary \/ x.1 = file_path) w w1) as H1.
  { eapply opens_one; [done | by right]. }
  unfold bind at 1.
  pose proof (comprehension_opens pp flag (splitlines t) w1) as H2.
  destruct (comprehension _ (splitlines t) w1) as [[lines|e] w2]; simpl in H2.
  - assert (opens (fun x => x.2 = WriteBinary \/ x.1 = file_path) w w2) as H3.
    { eapply opens_trans; [done|]. eapply opens_weaken; [|done]. by left. }
    destruct (bool_decide _); simpl; [done|].
    eapply opens_trans; [done|]. eapply opens_one; [done | by right].
  - simpl. eapply opens_trans; [done|]. eapply opens_weaken; [|done]. by left.
Qed.

Lemma for_each_opens (P : str * mode -> Prop) (l : list str)
    (body : str -> io unit) (w : World) :
  (forall p w, p ∈ l -> opens P w (body p w).2) ->
  opens P w (for_each l body w).2.
Proof.
  revert w. induction l as [|p l IH]; intros w H; simpl.
  - by apply opens_refl.
  - unfold bind. pose proof (H p w ltac:(left)) as H1.
    destruct (body p w) as [[[]|e] w1]; simpl in *; [|done].
    eapply opens_trans; [done|]. apply IH. intros q w' Hq. apply H. by right.
Qed.

Lemma update_project_opens (walk : list (str * list str * list str))
    (pp : str) (w : World) :
  opens (fun x => x.2 = WriteBinary \/ ignored x.1 = false) w
    (update_project walk pp w).2.
Proof.
  rewrite update_urls_in_project_run. apply for_each_opens.
  intros p w' Hp%candidates_not_ignored.
  eapply opens_weaken; [|apply update_file_opens].
  intros x [? | ->]; [by left | by right].
Qed.

(** C7: a file whose path contains [.git], [node_modules] or [__pycache__]
    anywhere is not among the paths the walker hands to the file
    processor, and the run never opens it to read or rewrite it (the only
    [open] calls a run can make on such a path are the asset fetcher's
    binary writes). *)
Theorem walker_skips_ignored_files (walk : list (str * list str * list str))
    (project_path : str) (w : World) (file_path d a b : str) :
  d ∈ ignored_dirs -> file_path = a ++ d ++ b ->
  (file_path ∉ candidates path_join walk) /\
  forall m, (file_path, m) ∈ new_opens w (update_project walk project_path w).2 ->
            m = WriteBinary.
Proof.
  intros Hd Hp.
  assert (ignored file_path = true) as Hi by (apply ignored_iff; by exists d, a, b).
  split.
  - intros H%candidates_not_ignored. congruence.
  - intros m Hm.
    pose proof (opens_new _ _ _ (update_project_opens walk project_path w)) as F.
    rewrite Forall_forall in F. destruct (F _ Hm) as [?|?]; [done|].
    simpl in *. congruence.
Qed.

End LogFacts.

Lemma walker_skips_ignored_files_witness :
  (py "proj/.git/config" ∉ candidates posix_join git_walk) /\
  forall m,
    (py "proj/.git/config", m)
      ∈ new_opens git_world
          (update_urls_in_project ascii_only fixed_response posix_join
             git_walk (py "proj") git_world).2 ->
    m = WriteBinary.
Proof.
  apply (walker_skips_ignored_files ascii_only fixed_response posix_join
           git_walk (py "proj") git_world (py "proj/.git/config")
           (py ".git") (py "proj/") (py "/config")).
  - by left.
  - reflexivity.
Defined.

Section RewriteClaims.

Variable unicode_alnum : N -> bool.
Variable http_get : str -> data.
Variable path_join : str -> str -> str.

Local Abbreviation extract := (extract_url_from_text unicode_alnum).
Local Abbreviation update_line := (update_url_in_line unicode_alnum http_get).
Local Abbreviation update_file := (update_urls_in_file unicode_alnum http_get).
Local Abbreviation update_project :=
  (update_urls_in_project unicode_alnum http_get path_join).

(** C9: a derived filename has no [/]; so the destination path
    [public_dir + '/' + file_name], which is the path [update_url_in_line]
    saves the asset to, has its last [/] right behind the asset directory:
    the asset is a file directly inside it. *)
Theorem derived_name_is_flat (url fn : str) :
  get_file_name_from_url url = Some fn ->
  (47%N ∉ fn) /\
  (forall project_path : str,
      rfind ((project_path ++ py "/public") ++ py "/" ++ fn) (py "/")
      = len (project_path ++ py "/public")) /\
  (forall (line project_path : str) (s e : Z) (flag : bool) (w : World),
      extract line = Return (Some (url, s, e)) ->
      new_opens w (update_line line project_path flag w).2
      = [((project_path ++ py "/public") ++ py "/" ++ fn, WriteBinary)]).
Proof.
  intros Hfn. pose proof (get_file_name_no_slash _ _ Hfn) as H.
  split; [done | split].
  - intros pp. unfold rfind. change (py "/" ++ fn) with (47%N :: fn).
    change (py "/") with [47%N]. by rewrite last_occ_char_app.
  - intros line pp s e flag w Hx.
    rewrite update_url_in_line_run, Hx, Hfn. unfold new_opens, after_save.
    simpl. by rewrite drop_app_length.
Qed.



(** C4 (the code at a file in which a rewritten line equals another
    original line): the file is rewritten, one line position changes, and
    the report says [0]. *)
Theorem report_count_misses_changed_line :
  (update_file (py "notes.txt") (py "proj") false notes_world).1 = Return tt /\
  files (update_file (py "notes.txt") (py "proj") false notes_world).2
    !! py "notes.txt"
  = Some (Text (concat [py " /a.png" ++ newline; py " /a.png" ++ newline])) /\
  console (update_file (py "notes.txt") (py "proj") false notes_world).2
  = [format_report (py "notes.txt") (py "0 Discord CDN URLs")] /\
  distinct_changed_lines notes_lines
    [py " /a.png" ++ newline; py " /a.png" ++ newline] = 1%nat.
Proof. by vm_compute. Qed.

End RewriteClaims.

Lemma derived_name_is_flat_witness :
  (47%N ∉ py "logo.png") /\
  (forall project_path : str,
      rfind ((project_path ++ py "/public") ++ py "/" ++ py "logo.png") (py "/")
      = len (project_path ++ py "/public")) /\
  (forall (line project_path : str) (s e : Z) (flag : bool) (w : World),
      extract_url_from_text ascii_only line
      = Return (Some (py "https://cdn.discordapp.com/x/logo.png", s, e)) ->
      new_opens w
        (update_url_in_line ascii_only fixed_response line project_path flag w).2
      = [((project_path ++ py "/public") ++ py "/" ++ py "logo.png",
          WriteBinary)]).
Proof.
  apply (derived_name_is_flat ascii_only fixed_response
           (py "https://cdn.discordapp.com/x/logo.png")).
  vm_compute. reflexivity.
Defined.

(** ** Occurrences, by positions *)

Lemma startswith_lookup (s p : str) :
  startswith s p = true <->
  forall i, (i < length p)%nat -> s !! i = p !! i.
Proof.
  split.
  - intros [r ->]%startswith_iff i Hi. by apply lookup_app_l.
  - revert s. induction p as [|c p IH]; intros s H; [done|].
    destruct s as [|d s].
    + specialize (H 0%nat ltac:(simpl; lia)). done.
    + simpl. pose proof (H 0%nat ltac:(simpl; lia)) as [= ->].
      rewrite N.eqb_refl. simpl. apply IH. intros i Hi.
      apply (H (S i)). simpl. lia.
Qed.

Lemma occurs_lookup (s p : str) (k : nat) :
  startswith (drop k s) p = true <->
  forall i, (i < length p)%nat -> s !! (k + i)%nat = p !! i.
Proof.
  rewrite startswith_lookup. by setoid_rewrite lookup_drop.
Qed.


(** The characters of the prefix. *)
Lemma cdn_chars :
  cdn = [104; 116; 116; 112; 115; 58; 47; 47; 99; 100; 110; 46; 100; 105;
         115; 99; 111; 114; 100; 97; 112; 112; 46; 99; 111; 109]%N.
Proof. reflexivity. Qed.




(** ** A rewritten line holds no link

    [line[:s] + "/" + name + line[e:]], where the only occurrence of the
    prefix in [line] is at [s], holds no occurrence of the prefix. *)





(** ** When the opening delimiter occurs in [https://] *)

Lemma find_nat (text sub : str) (s : nat) :
  (s <= length text)%nat ->
  find text sub (Z.of_nat s)
  = match first_occ sub (drop s text) with
    | Some k => Z.of_nat (s + k)
    | None => -1
    end.
Proof.
  intros Hs. unfold find, from_end, len.
  destruct (Z.ltb_spec (Z.of_nat s) 0); [lia|].
  rewrite Z.max_r by lia.
  destruct (Z.ltb_spec (Z.of_nat (length text)) (Z.of_nat s)); [lia|].
  rewrite Nat2Z.id. destruct (first_occ _ _); [|done]. lia.
Qed.

Lemma cdn_colon (k : nat) : cdn !! k = Some 58%N -> k = 5%nat.
Proof.
  rewrite cdn_chars.
  do 26 (destruct k as [|k]; [simpl; intros H; first [discriminate H | auto]|]). done.
Qed.


Section Truncation.

Variable unicode_alnum : N -> bool.

Local Abbreviation extract := (extract_url_from_text unicode_alnum).
Local Abbreviation alnum := (isalnum_char unicode_alnum).




Lemma span_end_cases (text : str) (c : char) (s : Z) :
  0 <= s -> text !! Z.to_nat s = Some 104%N -> c <> 104%N ->
  span_end text c s = len text - 1 \/
  exists d, text !! Z.to_nat (span_end text c s) = Some d /\
            (d = c \/ d = 32%N \/ d = 41%N).
Proof.
  intros H0 Hh Hc.
  pose proof (delimiter_index text s c H0 Hh Hc) as D1.
  pose proof (delimiter_index text s 32%N H0 Hh ltac:(done)) as D2.
  pose proof (delimiter_index text s 41%N H0 Hh ltac:(done)) as D3.
  unfold span_end. change (py " ") with [32%N]. change (py ")") with [41%N].
  set (a := sentinel (find text [c] s)) in *.
  set (b := sentinel (find text [32%N] s)) in *.
  set (d := sentinel (find text [41%N] s)) in *.
  destruct (Z.eqb_spec (Z.min (Z.min a b) d) NO_MATCHES_FOUND) as [E1|E1];
    [by left|].
  destruct (Z.eqb_spec (Z.min (Z.min a b) d) (-1)) as [E2|E2]; [by left|].
  right. simpl.
  destruct (Z.min_spec a b) as [[_ Hab]|[_ Hab]];
    destruct (Z.min_spec (Z.min a b) d) as [[_ Hm]|[_ Hm]];
    rewrite Hm in *; try rewrite Hab in *.
  - destruct D1 as [?|[_ ?]]; [done|]. exists c. auto.
  - destruct D3 as [?|[_ ?]]; [done|]. exists 41%N. auto.
  - destruct D2 as [?|[_ ?]]; [done|]. exists 32%N. auto.
  - destruct D3 as [?|[_ ?]]; [done|]. exists 41%N. auto.
Qed.

Lemma update_file_url_span (line name : str) (s e : Z) :
  0 <= s -> 0 <= e ->
  update_file_url line name s e
  = take (Z.to_nat s) line ++ (47%N :: name) ++ drop (Z.to_nat e) line.
Proof.
  intros Hs He. unfold update_file_url.
  by rewrite slice_prefix, slice_suffix.
Qed.


End Truncation.

(** ** Lines read and written back *)

Lemma splitlines_shape (t : str) : lines_shape (splitlines t).
Proof.
  induction t as [|c t IH]; [done|]. simpl.
  destruct (N.eqb_spec c 10) as [->|Hc].
  - split; [|done]. exists [], 10%N. split; [done|]. split; [|done].
    by intros ?%elem_of_nil.
  - destruct (splitlines t) as [|l ls]; simpl in *.
    + split; [|done]. exists [], c. split; [done|]. split; [|done].
      by intros ?%elem_of_nil.
    + destruct IH as [(body & z & -> & Hb & Hz) IH]. split; [|done].
      exists (c :: body), z. split; [done|]. split; [|done].
      rewrite not_elem_of_cons. split; [congruence | done].
Qed.

Lemma splitlines_complete (b rest : str) :
  10%N ∉ b -> splitlines (b ++ 10%N :: rest) = (b ++ [10%N]) :: splitlines rest.
Proof.
  induction b as [|c b IH]; [done|]. rewrite not_elem_of_cons. intros [Hc Hb].
  simpl. rewrite (IH Hb). by destruct (N.eqb_spec c 10); [congruence|].
Qed.

Lemma splitlines_partial (b : str) (z : char) :
  10%N ∉ b -> z <> 10%N -> splitlines (b ++ [z]) = [b ++ [z]].
Proof.
  intros Hb Hz. induction b as [|c b IH]; simpl.
  - by destruct (N.eqb_spec z 10).
  - apply not_elem_of_cons in Hb as [Hc Hb]. rewrite (IH Hb).
    by destruct (N.eqb_spec c 10); [congruence|].
Qed.

Lemma splitlines_concat (ls : list str) :
  lines_shape ls -> splitlines (concat ls) = ls.
Proof.
  induction ls as [|l ls IH]; [done|].
  intros [(body & z & -> & Hb & Hz) Hs]. simpl.
  destruct (decide (z = 10%N)) as [->|Hne].
  - rewrite <- app_assoc. simpl. rewrite splitlines_complete by done.
    by rewrite IH.
  - rewrite (Hz Hne). simpl. rewrite app_nil_r. by apply splitlines_partial.
Qed.

Lemma replace_from_sub (n : nat) (s old : str) (x : char) :
  x ∈ replace_from n s old [] -> x ∈ s.
Proof.
  revert s. induction n as [|n IH]; intros s; [done|]. simpl.
  destruct (startswith s old).
  - intros H%IH. by eapply subseteq_drop.
  - destruct s as [|c s]; [done|]. rewrite !elem_of_cons.
    intros [->|H%IH]; auto.
Qed.

(** Every character of a derived name is a character of the url. *)
Lemma get_file_name_sub (url fn : str) (x : char) :
  get_file_name_from_url url = Some fn -> x ∈ fn -> x ∈ url.
Proof.
  rewrite get_file_name_steps. unfold derive_reference_all.
  destruct (after_last_slash _) as [f|] eqn:E; [|done].
  intros [= <-] H%strip_trailing_sub.
  apply (after_last_slash_sub _ _ _ E) in H.
  apply replace_from_sub in H. by apply strip_trailing_sub in H.
Qed.

Section Idempotence.

Variable unicode_alnum : N -> bool.
Variable http_get : str -> data.

Local Abbreviation extract := (extract_url_from_text unicode_alnum).
Local Abbreviation value := (line_value unicode_alnum).
Local Abbreviation update_line := (update_url_in_line unicode_alnum http_get).
Local Abbreviation update_file := (update_urls_in_file unicode_alnum http_get).

(** A rewritten line differs from the original. *)
Lemma rewritten_differs (line url name : str) (s e : Z) :
  extract line = Return (Some (url, s, e)) ->
  update_file_url line name s e <> line.
Proof.
  intros Hx E.
  destruct (extract_bounds _ _ _ _ _ Hx) as (H0 & Hse & Hel).
  apply extract_Some in Hx as (c & Hs & Hne & _).
  destruct (found_prefix _ _ Hs Hne) as (_ & _ & _ & Hh).
  rewrite update_file_url_span in E by lia.
  apply (f_equal (fun l => l !! Z.to_nat s)) in E. rewrite Hh in E.
  rewrite lookup_app_r in E by (rewrite length_take; lia).
  rewrite length_take in E.
  replace (Z.to_nat s - Z.to_nat s `min` length line)%nat with 0%nat in E
    by (unfold len in *; lia).
  done.
Qed.

Lemma update_line_run (line pp : str) (flag : bool) (w : World) :
  exists w', update_line line pp flag w = (Return (value line flag), w') /\
             (value line flag = line -> w' = w).
Proof.
  rewrite update_url_in_line_run. unfold line_value.
  destruct (extract_total unicode_alnum line) as [[[[url s] e]|] Hx]; rewrite Hx.
  - destruct (get_file_name_from_url url) as [fn|]; [|by eexists].
    eexists. split; [done|]. intros E.
    by destruct (rewritten_differs _ _ _ _ _ Hx E).
  - by eexists.
Qed.




Lemma comprehension_run (pp : str) (flag : bool) (lines : list str) (w : World) :
  exists w',
    comprehension (fun line => update_line line pp flag) lines w
    = (Return (map (fun l => value l flag) lines), w') /\
    (map (fun l => value l flag) lines = lines -> w' = w).
Proof.
  revert w. induction lines as [|l lines IH]; intros w; simpl.
  - by eexists.
  - unfold bind at 1. destruct (update_line_run l pp flag w) as (w1 & -> & H1).
    unfold bind at 1. destruct (IH w1) as (w2 & -> & H2).
    exists w2. split; [done|]. intros [= E1 E2]. by rewrite (H2 E2), (H1 E1).
Qed.

(** The value keeps a line's last character and adds no line feed. *)
Lemma value_body (line body : str) (z : char) (flag : bool) :
  line = body ++ [z] -> 10%N ∉ body ->
  exists body', value line flag = body' ++ [z] /\ (10%N ∉ body').
Proof.
  intros -> Hb. unfold line_value.
  destruct (extract (body ++ [z])) as [[[[url s] e]|]|x] eqn:Hx; [|by eexists..].
  destruct (get_file_name_from_url url) as [fn|] eqn:Hfn; [|by eexists].
  destruct (extract_bounds _ _ _ _ _ Hx) as (H0 & Hse & Hel).
  pose proof Hx as (c & _ & _ & _ & _ & _ & Hurl)%extract_Some.
  rewrite slice_span in Hurl by lia.
  unfold len in Hel. rewrite length_app in Hel. simpl in Hel.
  rewrite update_file_url_span by lia.
  rewrite take_app_le by lia. rewrite drop_app_le by lia.
  rewrite drop_app_le, take_app_le in Hurl by (rewrite ?length_drop; lia).
  exists (take (Z.to_nat s) body
            ++ (47%N :: (if flag then py "public/" ++ fn else fn))
            ++ drop (Z.to_nat e) body).
  split; [by rewrite !app_assoc|].
  rewrite !not_elem_of_app. split; [|split].
  - intros H. apply Hb. by eapply subseteq_take.
  - rewrite not_elem_of_cons. split; [done|].
    assert (10%N ∉ fn) as Hn.
    { intros H. apply (get_file_name_sub _ _ _ Hfn) in H. rewrite Hurl in H.
      apply Hb. eapply subseteq_drop, subseteq_take, H. }
    destruct flag; [|done]. rewrite not_elem_of_app. split; [|done].
    intros H%list_elem_of_In. vm_compute in H.
    by repeat (destruct H as [H|H]; [discriminate H|]).
  - intros H. apply Hb. by eapply subseteq_drop.
Qed.

Lemma value_shape (lines : list str) (flag : bool) :
  lines_shape lines -> lines_shape (map (fun l => value l flag) lines).
Proof.
  induction lines as [|l lines IH]; [done|].
  intros [(body & z & Hl & Hb & Hz) Hs]. simpl. split; [|by apply IH].
  destruct (value_body l body z flag Hl Hb) as (body' & -> & Hb').
  exists body', z. split; [done|]. split; [done|].
  intros Hne. by rewrite (Hz Hne).
Qed.

End Idempotence.

(** ** Idempotence of the file processor *)

Section IdempotenceClaims.

Variable unicode_alnum : N -> bool.
Variable http_get : str -> data.

Local Abbreviation value := (line_value unicode_alnum).
Local Abbreviation update_line := (update_url_in_line unicode_alnum http_get).
Local Abbreviation update_file := (update_urls_in_file unicode_alnum http_get).

Lemma update_file_unchanged (file_path pp : str) (flag : bool) (w : World)
    (t : str) :
  files w !! file_path = Some (Text t) ->
  map (fun l => value l flag) (splitlines t) = splitlines t ->
  update_file file_path pp flag w = (Return tt, log_open file_path ReadText w).
Proof.
  intros Hf Hv. unfold update_urls_in_file, bind at 1, except_decode, open_readlines.
  rewrite Hf. unfold bind at 1.
  destruct (comprehension_run unicode_alnum http_get pp flag (splitlines t)
              (log_open file_path ReadText w)) as (w' & -> & Hw).
  rewrite Hv, (Hw Hv). by rewrite bool_decide_eq_true_2.
Qed.

Lemma update_file_changed (file_path pp : str) (flag : bool) (w : World)
    (t : str) :
  files w !! file_path = Some (Text t) ->
  map (fun l => value l flag) (splitlines t) <> splitlines t ->
  exists w',
    update_file file_path pp flag w = (Return tt, w') /\
    files w' !! file_path
    = Some (Text (concat (map (fun l => value l flag) (splitlines t)))).
Proof.
  intros Hf Hv. unfold update_urls_in_file, bind at 1, except_decode, open_readlines.
  rewrite Hf. unfold bind at 1.
  destruct (comprehension_run unicode_alnum http_get pp flag (splitlines t)
              (log_open file_path ReadText w)) as (w' & -> & _).
  rewrite bool_decide_eq_false_2 by congruence.
  eexists. split; [done|]. simpl. by rewrite lookup_insert_eq.
Qed.


End IdempotenceClaims.



(** ** Further properties of the program *)

Section FurtherProperties.

Variable unicode_alnum : N -> bool.
Variable http_get : str -> data.

Local Abbreviation extract := (extract_url_from_text unicode_alnum).
Local Abbreviation update_line := (update_url_in_line unicode_alnum http_get).
Local Abbreviation update_file := (update_urls_in_file unicode_alnum http_get).

(** X1: [extract_url_from_text] never raises: [text[start_index - 1]] is
    always in range. *)
Theorem extractor_never_raises (text : str) :
  exists r, extract_url_from_text unicode_alnum text = Return r.
Proof. apply extract_total. Qed.

(** X2: a line that does not hold the prefix is returned unchanged, and
    nothing is fetched or written. *)
Theorem line_without_prefix_unchanged (line pp : str) (flag : bool) (w : World) :
  find line cdn 0 = -1 -> update_line line pp flag w = (Return line, w).
Proof.
  intros H. rewrite update_url_in_line_run. unfold extract_url_from_text.
  by rewrite H.
Qed.

(** X3: a file that does not decode as UTF-8 is skipped: it is opened to
    read and nothing else happens. *)
Theorem undecodable_file_skipped (file_path pp : str) (flag : bool) (w : World)
    (b : list N) :
  files w !! file_path = Some (Binary b) ->
  update_file file_path pp flag w = (Return tt, log_open file_path ReadText w).
Proof.
  intros H. unfold update_urls_in_file, bind, except_decode, open_readlines.
  by rewrite H.
Qed.

(** Example: on a line with a quoted link the span bounds the link without the
    quotes, the derived name is the last path segment, and the rewrite
    puts the local reference between the quotes. *)
Theorem quoted_link_example :
  extract (py "a " ++ dquote ++ py "https://cdn.discordapp.com/base/img.png"
             ++ dquote ++ py " b")
  = Return (Some (py "https://cdn.discordapp.com/base/img.png", 3, 42)) /\
  get_file_name_from_url (py "https://cdn.discordapp.com/base/img.png")
  = Some (py "img.png") /\
  line_value unicode_alnum
    (py "a " ++ dquote ++ py "https://cdn.discordapp.com/base/img.png"
       ++ dquote ++ py " b") false
  = py "a " ++ dquote ++ py "/img.png" ++ dquote ++ py " b" /\
  line_value unicode_alnum
    (py "a " ++ dquote ++ py "https://cdn.discordapp.com/base/img.png"
       ++ dquote ++ py " b") true
  = py "a " ++ dquote ++ py "/public/img.png" ++ dquote ++ py " b".
Proof. by vm_compute. Qed.

(** Example: a url without a path segment gives no name, and a url that ends in
    a bare [?] loses it. *)
Theorem bare_host_and_query_marker :
  get_file_name_from_url (py "https://cdn.discordapp.com") = None /\
  get_file_name_from_url (py "https://cdn.discordapp.com/") = None /\
  get_file_name_from_url (py "https://cdn.discordapp.com/base/img.png?")
  = Some (py "img.png").
Proof. by vm_compute. Qed.

(** Example: one run over a project with a markdown file that embeds an image:
    the asset is saved under [public], the link is replaced by the local
    reference with the [public/] prefix, and one changed line is reported. *)
Theorem readme_scenario :
  update_urls_in_project unicode_alnum http_get posix_join readme_walk
    (py "proj") readme_world
  = (Return tt,
     mkWorld
       (<[ py "proj/readme.md" :=
             Text (py "![alt](/public/logo.png " ++ dquote ++ py "t" ++ dquote
                     ++ py ")") ]>
          (<[ py "proj/public/logo.png" :=
                http_get (py "https://cdn.discordapp.com/x/logo.png") ]>
             (files readme_world)))
       {[ py "proj/public" ]}
       [format_report (py "proj/readme.md") (py "1 Discord CDN URLs")]
       [(py "proj/readme.md", ReadText);
        (py "proj/public/logo.png", WriteBinary);
        (py "proj/readme.md", WriteText)]).
Proof. by vm_compute.
Qed.

End FurtherProperties.

Lemma line_without_prefix_unchanged_witness :
  update_url_in_line ascii_only fixed_response (py "no link here") (py "proj")
    true page_world
  = (Return (py "no link here"), page_world).
Proof.
  apply (line_without_prefix_unchanged ascii_only fixed_response).
  vm_compute. reflexivity.
Defined.

Lemma undecodable_file_skipped_witness :
  update_urls_in_file ascii_only fixed_response (py "proj/logo.png") (py "proj")
    false
    (mkWorld {[ py "proj/logo.png" := Binary [137; 80; 78]%N ]} ∅ [] [])
  = (Return tt,
     log_open (py "proj/logo.png") ReadText
       (mkWorld {[ py "proj/logo.png" := Binary [137; 80; 78]%N ]} ∅ [] [])).
Proof.
  apply (undecodable_file_skipped ascii_only fixed_response _ _ _ _
           [137; 80; 78]%N).
  reflexivity.
Defined.

(** ** More about the span extractor *)

Section ExtractorMore.

Variable unicode_alnum : N -> bool.

Local Abbreviation extract := (extract_url_from_text unicode_alnum).
Local Abbreviation alnum := (isalnum_char unicode_alnum).

(** X4: the url text of a span is the substring between its offsets; the
    span starts at the first occurrence of the prefix in the line, and ends
    before the line's last character. *)
Theorem span_is_first_occurrence (text url : str) (s e : Z) :
  extract_url_from_text unicode_alnum text = Return (Some (url, s, e)) ->
  url = take (Z.to_nat (e - s)) (drop (Z.to_nat s) text) /\
  len url = e - s /\
  startswith (drop (Z.to_nat s) text) cdn = true /\
  (forall j, 0 <= j < s -> startswith (drop (Z.to_nat j) text) cdn = false) /\
  e < len text.
Proof.
  intros Hx. destruct (extract_bounds _ _ _ _ _ Hx) as (H0 & Hse & Hel).
  apply extract_Some in Hx as (c & Hs & Hne & _ & _ & _ & Hurl).
  destruct (found_prefix _ _ Hs Hne) as (_ & _ & Hp & _).
  rewrite slice_span in Hurl by lia.
  replace (Z.to_nat e - Z.to_nat s)%nat with (Z.to_nat (e - s)) in Hurl by lia.
  split; [done | split; [|split; [done | split; [|done]]]].
  - rewrite Hurl. unfold len in *. rewrite length_take, length_drop. lia.
  - symmetry in Hs.
    by destruct (find_found _ _ _ _ (Z.le_refl 0) Hs Hne) as (_ & _ & _ & Hmin).
Qed.

(** A search for [d] from [s]: no [d] stands between [s] and the index,
    the sentinel standing for the end of a line below the sentinel. *)
Lemma no_delimiter_before (text : str) (s : Z) (d : char) (j : Z) :
  0 <= s <= len text -> len text <= NO_MATCHES_FOUND ->
  s <= j < sentinel (find text [d] s) ->
  text !! Z.to_nat j <> Some d.
Proof.
  intros Hs Hlen Hj Hd. apply startswith_drop_char in Hd. unfold sentinel in Hj.
  destruct (Z.eqb_spec (find text [d] s) (-1)) as [E|E].
  - by rewrite (find_absent _ _ _ Hs E j) in Hd by lia.
  - destruct (find_found _ _ _ _ (proj1 Hs) eq_refl E) as (_ & _ & _ & Hmin).
    by rewrite Hmin in Hd by lia.
Qed.

(** X5: on a line no longer than the sentinel, the url text of a span
    holds no blank, no closing parenthesis and not the opening delimiter
    (the character read at [start - 1]); the span ends at one of these
    three, or at the line's last character when none follows. *)
Theorem span_holds_no_delimiter (text url : str) (s e : Z) (c : char) :
  len text <= NO_MATCHES_FOUND ->
  extract_url_from_text unicode_alnum text = Return (Some (url, s, e)) ->
  getitem text (s - 1) = Return [c] ->
  (32%N ∉ url) /\ (41%N ∉ url) /\ (c ∉ url) /\
  (e = len text - 1 \/
   exists d, text !! Z.to_nat e = Some d /\ (d = c \/ d = 32%N \/ d = 41%N)).
Proof.
  intros Hlen Hx Hg.
  destruct (extract_bounds _ _ _ _ _ Hx) as (H0 & Hse & Hel).
  apply extract_Some in Hx as (c' & Hs & Hne & Hg' & Hc & He & Hurl).
  rewrite Hg in Hg'. injection Hg' as <-.
  destruct (found_prefix _ _ Hs Hne) as (_ & Hl & _ & Hh).
  assert (c <> 104%N) as Hc' by (intros ->; by rewrite alnum_h in Hc).
  assert (forall d, d = c \/ d = 32%N \/ d = 41%N ->
                    e <= sentinel (find text [d] s)) as Hle.
  { intros d Hd. rewrite He. unfold span_end.
    change (py " ") with [32%N]. change (py ")") with [41%N].
    pose proof (delimiter_index text s c H0 Hh Hc') as D1.
    pose proof (delimiter_index text s 32%N H0 Hh ltac:(done)) as D2.
    pose proof (delimiter_index text s 41%N H0 Hh ltac:(done)) as D3.
    set (a := sentinel (find text [c] s)) in *.
    set (b := sentinel (find text [32%N] s)) in *.
    set (f := sentinel (find text [41%N] s)) in *.
    assert (sentinel (find text [d] s) = a \/ sentinel (find text [d] s) = b
            \/ sentinel (find text [d] s) = f) as Hd'
      by (destruct Hd as [->|[->| ->]]; auto).
    destruct (Z.eqb_spec (Z.min (Z.min a b) f) NO_MATCHES_FOUND);
      destruct (Z.eqb_spec (Z.min (Z.min a b) f) (-1)); simpl;
      unfold NO_MATCHES_FOUND in *; lia. }
  assert (forall d, d = c \/ d = 32%N \/ d = 41%N -> d ∉ url) as Hno.
  { intros d Hd Hin. rewrite Hurl, slice_span in Hin by lia.
    apply elem_of_take in Hin as (i & Hi & Hlt). rewrite lookup_drop in Hi.
    apply (no_delimiter_before text s d (s + Z.of_nat i)); [lia | done | |].
    - specialize (Hle d Hd). lia.
    - by replace (Z.to_nat (s + Z.of_nat i)) with (Z.to_nat s + i)%nat by lia. }
  split; [apply Hno; auto | split; [apply Hno; auto | split; [apply Hno; auto|]]].
  rewrite He. by apply span_end_cases.
Qed.

(** X6: the extractor refuses a line exactly when the line does not hold
    the prefix, or when the character read at [start_index - 1] (for
    [start_index = 0] the last character of the line) is alphanumeric; later
    occurrences of the prefix are not looked at. *)
Theorem extractor_refuses_iff (text : str) :
  extract_url_from_text unicode_alnum text = Return None <->
  find text cdn 0 = -1 \/
  exists c, text !! Z.to_nat (from_end text (find text cdn 0 - 1)) = Some c /\
            isalnum_char unicode_alnum c = true.
Proof.
  unfold extract_url_from_text.
  destruct (Z.eqb_spec (find text cdn 0) (-1)) as [E|Hs]; [by split; auto|].
  destruct (found_prefix text _ eq_refl Hs) as (H0 & Hl & _ & _).
  set (s := find text cdn 0) in *.
  assert (0 <= from_end text (s - 1) < len text) as Hr.
  { unfold from_end. destruct (Z.ltb_spec (s - 1) 0); lia. }
  unfold getitem.
  destruct (Z.ltb_spec (from_end text (s - 1)) 0); [lia|].
  destruct (Z.leb_spec (len text) (from_end text (s - 1))); [lia|]. simpl.
  destruct (lookup_lt_is_Some_2 text (Z.to_nat (from_end text (s - 1))))
    as [c Hc]; [unfold len in *; lia|].
  rewrite Hc. simpl. rewrite andb_true_r.
  destruct (alnum c) eqn:Ha.
  - split; [|done]. intros _. right. by exists c.
  - split; [done|]. intros [?|(c' & [= <-] & ?)]; [done | congruence].
Qed.

End ExtractorMore.

Lemma span_is_first_occurrence_witness :
  py "https://cdn.discordapp.com/a.png"
  = take (Z.to_nat (35 - 3))
      (drop (Z.to_nat 3) (py "a (https://cdn.discordapp.com/a.png) b" ++ newline)) /\
  len (py "https://cdn.discordapp.com/a.png") = 35 - 3 /\
  startswith
    (drop (Z.to_nat 3) (py "a (https://cdn.discordapp.com/a.png) b" ++ newline))
    cdn = true /\
  (forall j, 0 <= j < 3 ->
     startswith
       (drop (Z.to_nat j) (py "a (https://cdn.discordapp.com/a.png) b" ++ newline))
       cdn = false) /\
  35 < len (py "a (https://cdn.discordapp.com/a.png) b" ++ newline).
Proof.
  apply (span_is_first_occurrence ascii_only).
  vm_compute. reflexivity.
Defined.

Lemma span_holds_no_delimiter_witness :
  (32%N ∉ py "https://cdn.discordapp.com/a.png") /\
  (41%N ∉ py "https://cdn.discordapp.com/a.png") /\
  (40%N ∉ py "https://cdn.discordapp.com/a.png") /\
  (35 = len (py "a (https://cdn.discordapp.com/a.png) b" ++ newline) - 1 \/
   exists d,
     (py "a (https://cdn.discordapp.com/a.png) b" ++ newline) !! Z.to_nat 35
     = Some d /\ (d = 40%N \/ d = 32%N \/ d = 41%N)).
Proof.
  apply (span_holds_no_delimiter ascii_only
           (py "a (https://cdn.discordapp.com/a.png) b" ++ newline)
           (py "https://cdn.discordapp.com/a.png") 3 35 40%N).
  - by vm_compute.
  - vm_compute. reflexivity.
  - vm_compute. reflexivity.
Defined.

(** ** More about the filename deriver and the line rewriter *)

Lemma after_last_slash_app (dir name : str) :
  47%N ∉ name -> after_last_slash (dir ++ 47%N :: name) = Some name.
Proof.
  intros H. rewrite after_last_slash_occ, (last_occ_char_app _ _ _ H). simpl.
  f_equal. change (47%N :: name) with ([47%N] ++ name).
  rewrite app_assoc. rewrite drop_app_length'; [done|].
  rewrite length_app. simpl. lia.
Qed.

(** X7: for a url [https://] + path + [/] + name whose name is not empty
    and has no [/], and in which [https://] occurs at the start only, the
    derived file name is the name (less one trailing [?]). *)
Theorem last_segment_is_name (path name : str) :
  47%N ∉ name -> name <> [] ->
  find (py "https://" ++ path ++ py "/" ++ name) (py "https://") 1 = -1 ->
  get_file_name_from_url (py "https://" ++ path ++ py "/" ++ name)
  = Some (if endswith name (py "?") then slice name None (Some (-1)) else name).
Proof.
  intros Hn Hne Hf. rewrite get_file_name_steps. unfold derive_reference_all.
  assert (strip_trailing 47 (py "https://" ++ path ++ py "/" ++ name)
          = py "https://" ++ path ++ py "/" ++ name) as ->.
  { apply strip_trailing_other.
    destruct (endswith _ [47%N]) eqn:E; [|done]. exfalso.
    apply endswith_char in E as [r Hr].
    destruct (exists_last Hne) as (name' & z & ->).
    rewrite !app_assoc in Hr. apply app_inj_tail in Hr as [_ ->].
    apply Hn. apply elem_of_app. right. by left. }
  rewrite replace_leading_only by done. unfold strip_scheme.
  rewrite startswith_app. change 8%nat with (length (py "https://")).
  rewrite drop_app_length. change (py "/" ++ name) with (47%N :: name).
  rewrite after_last_slash_app by done. simpl. f_equal.
  change (py "?") with [63%N]. symmetry. apply strip_by_slice.
Qed.

Lemma last_segment_is_name_witness :
  get_file_name_from_url
    (py "https://" ++ py "cdn.discordapp.com/attachments/42" ++ py "/"
       ++ py "logo.png?")
  = Some (if endswith (py "logo.png?") (py "?")
          then slice (py "logo.png?") None (Some (-1)) else py "logo.png?").
Proof.
  apply (last_segment_is_name (py "cdn.discordapp.com/attachments/42")
           (py "logo.png?")).
  - intros H%list_elem_of_In. vm_compute in H.
    by repeat (destruct H as [H|H]; [discriminate H|]).
  - discriminate.
  - vm_compute. reflexivity.
Defined.

(** X9: for offsets with [0 <= start <= end <= len(text)] the rewritten
    text keeps the text before [start] and the text from [end] on, and its
    length is the text's less the span plus the reference's. *)
Theorem rewrite_keeps_text_outside_span (text name : str) (s e : Z) :
  0 <= s -> s <= e -> e <= len text ->
  take (Z.to_nat s) (update_file_url text name s e) = take (Z.to_nat s) text /\
  drop (Z.to_nat s + 1 + length name) (update_file_url text name s e)
  = drop (Z.to_nat e) text /\
  len (update_file_url text name s e) = len text - (e - s) + 1 + len name.
Proof.
  intros H0 Hse He. rewrite update_file_url_span by lia. unfold len in *.
  assert (length (take (Z.to_nat s) text) = Z.to_nat s) as Hl
    by (rewrite length_take; lia).
  split; [|split].
  - by rewrite take_app_length'.
  - change (47%N :: name) with ([47%N] ++ name). rewrite !app_assoc.
    rewrite drop_app_length'; [done|]. rewrite !length_app, Hl. simpl. lia.
  - rewrite !length_app, Hl, length_drop. simpl. lia.
Qed.

Lemma rewrite_keeps_text_outside_span_witness :
  take (Z.to_nat 3) (update_file_url (py "a (x) b") (py "logo.png") 3 4)
  = take (Z.to_nat 3) (py "a (x) b") /\
  drop (Z.to_nat 3 + 1 + length (py "logo.png"))
    (update_file_url (py "a (x) b") (py "logo.png") 3 4)
  = drop (Z.to_nat 4) (py "a (x) b") /\
  len (update_file_url (py "a (x) b") (py "logo.png") 3 4)
  = len (py "a (x) b") - (4 - 3) + 1 + len (py "logo.png").
Proof.
  apply (rewrite_keeps_text_outside_span (py "a (x) b") (py "logo.png") 3 4);
    by vm_compute.
Defined.

Section RewriterMore.

Variable unicode_alnum : N -> bool.
Variable http_get : str -> data.

Local Abbreviation update_line := (update_url_in_line unicode_alnum http_get).

(** X8: a rewrite keeps the line ending: for a line made of a body without
    a line feed and one last character, the returned line is again a body
    without a line feed followed by the same last character. *)
Theorem rewrite_keeps_line_ending (line body pp : str) (z : char) (flag : bool)
    (w : World) :
  line = body ++ [z] -> 10%N ∉ body ->
  exists body',
    (update_url_in_line unicode_alnum http_get line pp flag w).1
    = Return (body' ++ [z]) /\ (10%N ∉ body').
Proof.
  intros Hl Hb.
  destruct (update_line_run unicode_alnum http_get line pp flag w)
    as (w' & -> & _).
  destruct (value_body unicode_alnum line body z flag Hl Hb) as (b' & -> & Hb').
  by exists b'.
Qed.



End RewriterMore.

Lemma rewrite_keeps_line_ending_witness :
  exists body',
    (update_url_in_line ascii_only fixed_response
       (py " https://cdn.discordapp.com/base/img.png" ++ [10%N]) (py "proj")
       true page_world).1
    = Return (body' ++ [10%N]) /\ (10%N ∉ body').
Proof.
  apply (rewrite_keeps_line_ending ascii_only fixed_response _
           (py " https://cdn.discordapp.com/base/img.png")).
  - reflexivity.
  - intros H%list_elem_of_In. vm_compute in H.
    by repeat (destruct H as [H|H]; [discriminate H|]).
Defined.


(** ** More about the file processor and the tree walker *)

Lemma concat_splitlines (t : str) : concat (splitlines t) = t.
Proof.
  induction t as [|c t IH]; [done|]. simpl.
  destruct (c =? 10)%N; [simpl; by rewrite IH|].
  destruct (splitlines t) as [|l ls]; simpl in *; by rewrite <- IH.
Qed.

(** A line of a text without the prefix is without the prefix. *)
Lemma line_without_prefix (t l : str) :
  find t cdn 0 = -1 -> l ∈ splitlines t -> find l cdn 0 = -1.
Proof.
  intros Ht Hl. destruct (contains l cdn) eqn:E.
  - apply contains_iff in E as (a & b & ->).
    apply list_elem_of_split in Hl as (l1 & l2 & Hs).
    assert (contains t cdn = true) as Hc.
    { apply contains_iff. exists (concat l1 ++ a), (b ++ concat l2).
      rewrite <- (concat_splitlines t), Hs, concat_app. simpl.
      by rewrite <- !app_assoc. }
    unfold contains in Hc. rewrite Ht in Hc. done.
  - unfold contains in E. apply negb_false_iff in E. by apply Z.eqb_eq.
Qed.






Section ProcessorMore.

Variable unicode_alnum : N -> bool.
Variable http_get : str -> data.
Variable path_join : str -> str -> str.

Local Abbreviation value := (line_value unicode_alnum).
Local Abbreviation update_line := (update_url_in_line unicode_alnum http_get).
Local Abbreviation update_file := (update_urls_in_file unicode_alnum http_get).
Local Abbreviation update_project :=
  (update_urls_in_project unicode_alnum http_get path_join).







(** X12: a text file that does not hold the prefix is read and nothing
    else: no fetch, no report, no write. *)
Theorem file_without_prefix_only_read (file_path pp : str) (flag : bool)
    (w : World) (t : str) :
  files w !! file_path = Some (Text t) -> find t cdn 0 = -1 ->
  update_urls_in_file unicode_alnum http_get file_path pp flag w
  = (Return tt, log_open file_path ReadText w).
Proof.
  intros Hf Ht. apply (update_file_unchanged _ _ _ _ _ _ t Hf).
  rewrite <- (map_id (splitlines t)) at 2. apply map_ext_in.
  intros l Hl%list_elem_of_In. unfold line_value, extract_url_from_text.
  by rewrite (line_without_prefix t l Ht Hl).
Qed.

(** X13: after a run over a text file, reading the file back line by line
    gives the list of the rewritten lines, one per original line, whether
    or not the file was written. *)
Theorem written_file_reads_back (file_path pp : str) (flag : bool) (w : World)
    (t : str) :
  files w !! file_path = Some (Text t) ->
  exists t',
    files (update_urls_in_file unicode_alnum http_get file_path pp flag w).2
      !! file_path = Some (Text t') /\
    splitlines t' = map (fun l => line_value unicode_alnum l flag) (splitlines t).
Proof.
  intros Hf.
  destruct (decide (map (fun l => value l flag) (splitlines t) = splitlines t))
    as [Hv|Hv].
  - rewrite (update_file_unchanged _ _ _ _ _ _ _ Hf Hv). by exists t.
  - destruct (update_file_changed unicode_alnum http_get file_path pp flag w t
                Hf Hv) as (w' & -> & Hf').
    eexists. split; [done|].
    apply splitlines_concat, value_shape, splitlines_shape.
Qed.




End ProcessorMore.

(** X17: the exclusion is a substring test: a path is ignored exactly when
    [.git], [node_modules] or [__pycache__] occurs somewhere in it, be it
    inside a longer name. *)
Theorem ignored_is_substring_match (file_path : str) :
  ignored file_path = true <->
  exists d a b, d ∈ ignored_dirs /\ file_path = a ++ d ++ b.
Proof. apply ignored_iff. Qed.

Lemma file_without_prefix_only_read_witness :
  update_urls_in_file ascii_only fixed_response (py "notes.txt") (py "proj")
    false
    (mkWorld {[ py "notes.txt" := Text (py "no link" ++ newline ++ py "here") ]}
       ∅ [] [])
  = (Return tt,
     log_open (py "notes.txt") ReadText
       (mkWorld {[ py "notes.txt" := Text (py "no link" ++ newline ++ py "here") ]}
          ∅ [] [])).
Proof.
  apply (file_without_prefix_only_read ascii_only fixed_response _ _ _ _
           (py "no link" ++ newline ++ py "here")).
  - reflexivity.
  - vm_compute. reflexivity.
Defined.

Lemma written_file_reads_back_witness :
  exists t',
    files (update_urls_in_file ascii_only fixed_response (py "proj/index.html")
             (py "proj") false page_world).2
      !! py "proj/index.html" = Some (Text t') /\
    splitlines t'
    = map (fun l => line_value ascii_only l false) (splitlines page_text).
Proof.
  apply (written_file_reads_back ascii_only fixed_response
           (py "proj/index.html") (py "proj") false page_world page_text).
  reflexivity.
Defined.



(** ** Edge behaviour *)

Lemma after_last_slash_none (u : str) :
  47%N ∉ u -> after_last_slash u = None.
Proof.
  intros H. by rewrite after_last_slash_occ, (last_occ_char_absent _ _ H).
Qed.

(** Behind a host without [/] the scheme does not occur a second time. *)
Lemma scheme_once (host : str) :
  47%N ∉ host -> find (py "https://" ++ host) (py "https://") 1 = -1.
Proof.
  intros H. change 1 with (Z.of_nat 1). rewrite find_nat by (simpl; lia).
  destruct (first_occ _ _) as [k|] eqn:E; [exfalso | done].
  apply first_occ_Some in E as (_ & E & _). rewrite drop_drop in E.
  rewrite occurs_lookup in E. specialize (E 7%nat ltac:(simpl; lia)).
  replace (1 + k + 7)%nat with (length (py "https://") + k)%nat in E
    by (simpl; lia).
  rewrite lookup_app_r in E by lia.
  replace (length (py "https://") + k - length (py "https://"))%nat with k
    in E by lia.
  apply list_elem_of_lookup_2 in E. done.
Qed.

(** X20: a url made of the scheme and a host without [/], with or without
    one trailing [/], yields no file name. *)
Theorem bare_host_has_no_name (host : str) :
  47%N ∉ host -> host <> [] ->
  get_file_name_from_url (py "https://" ++ host) = None /\
  get_file_name_from_url (py "https://" ++ host ++ py "/") = None.
Proof.
  intros H Hne.
  assert (strip_trailing 47 (py "https://" ++ host) = py "https://" ++ host)
    as Hs.
  { apply strip_trailing_other.
    destruct (endswith _ [47%N]) eqn:E; [|done]. exfalso.
    apply endswith_char in E as [r Hr].
    destruct (exists_last Hne) as (h & z & ->).
    rewrite app_assoc in Hr. apply app_inj_tail in Hr as [_ ->].
    apply H. apply elem_of_app. right. by left. }
  assert (after_last_slash (replace (py "https://" ++ host) (py "https://") [])
          = None) as Hd.
  { rewrite replace_leading_only by (by apply scheme_once).
    unfold strip_scheme. rewrite startswith_app.
    change 8%nat with (length (py "https://")). rewrite drop_app_length.
    by apply after_last_slash_none. }
  rewrite !get_file_name_steps. unfold derive_reference_all.
  change (py "/") with [47%N].
  rewrite (app_assoc _ host [47%N]), strip_trailing_snoc, Hs, Hd. done.
Qed.

Lemma bare_host_has_no_name_witness :
  get_file_name_from_url (py "https://" ++ py "cdn.discordapp.com") = None /\
  get_file_name_from_url (py "https://" ++ py "cdn.discordapp.com" ++ py "/")
  = None.
Proof.
  apply (bare_host_has_no_name (py "cdn.discordapp.com")).
  - intros H%list_elem_of_In. vm_compute in H.
    by repeat (destruct H as [H|H]; [discriminate H|]).
  - discriminate.
Defined.

(** X19: the report line starts with the whole path, however long, and
    ends with the count label; the path takes at least 80 columns and the
    label at least 20. *)
Theorem report_line_layout (a b : str) :
  take (length a) (format_report a b) = a /\
  drop (length (format_report a b) - length b) (format_report a b) = b /\
  length (format_report a b)
  = (Nat.max 80 (length a) + Nat.max 20 (length b))%nat.
Proof.
  unfold format_report. split; [|split].
  - rewrite <- !app_assoc. by rewrite take_app_length.
  - rewrite !app_assoc. rewrite drop_app_length'; [done|].
    rewrite !length_app. lia.
  - rewrite !length_app, !repeat_length. lia.
Qed.

Section WalkerMore.

Variable unicode_alnum : N -> bool.
Variable http_get : str -> data.
Variable path_join : str -> str -> str.

(** X18: only [UnicodeDecodeError] is caught: when the first file the
    walker hands on cannot be opened, the error leaves the run at once and
    no later file is processed. *)
Theorem missing_file_aborts_walk (walk : list (str * list str * list str))
    (pp file_path : str) (rest : list str) (w : World) :
  candidates path_join walk = file_path :: rest ->
  files w !! file_path = None ->
  update_urls_in_project unicode_alnum http_get path_join walk pp w
  = (Raise FileNotFoundError, w).
Proof.
  intros Hc Hf. rewrite update_urls_in_project_run, Hc. cbn [for_each].
  unfold bind at 1, update_urls_in_file at 1, bind at 1, except_decode,
    open_readlines.
  by rewrite Hf.
Qed.

End WalkerMore.

Lemma missing_file_aborts_walk_witness :
  update_urls_in_project ascii_only fixed_response posix_join
    [(py "proj", [], [py "gone.txt"; py "index.html"])] (py "proj") page_world
  = (Raise FileNotFoundError, page_world).
Proof.
  apply (missing_file_aborts_walk ascii_only fixed_response posix_join _ _
           (py "proj/gone.txt") [py "proj/index.html"]).
  - by vm_compute.
  - by vm_compute.
Defined.
